(** * MultiStep: action repeat and frame stacking around a gymnasium environment

    A shallow embedding of [multistep/space_utils.py], [multistep/buffers.py]
    and [multistep/wrapper.py], with the properties of the wrapper stated
    over it.

    Python objects are records, methods are functions from the object to
    its successor, and a call that may raise returns an [Exc].  A method
    that mutates [self] before raising returns the mutated object next to
    the exception. *)

From Stdlib Require Import String.
From Stdlib Require Import List ZArith Bool Arith Lia Floats Uint63.
From Stdlib Require Import Permutation Sorted.
Import ListNotations.

Set Implicit Arguments.
Set Warnings "-notation-for-abbreviation,-register-all".

(** ** Python exceptions and the result of a call *)

Inductive PyError : Set :=
| AssertionError
| NameError
| AttributeError
| IndexError
| TypeError
| ValueError.

Inductive Exc (A : Type) : Type :=
| Ok (a : A)
| Raise (e : PyError).

Arguments Ok {A} a.
Arguments Raise {A} e.

Definition bind {A B : Type} (m : Exc A) (k : A -> Exc B) : Exc B :=
  match m with
  | Ok a => k a
  | Raise e => Raise e
  end.

Notation "x <- m ;; k" := (bind m (fun x => k))
  (at level 61, m at next level, right associativity).

Definition is_ok {A : Type} (m : Exc A) : bool :=
  match m with Ok _ => true | Raise _ => false end.

(** ** The part of numpy the sources call

    An [ndarray] is its shape, its dtype and its elements in row-major
    order.  Only the operations used by the sources are modelled, each
    along axis 0 as the sources call it. *)

Module np.

Inductive DType : Set := bool_ | uint8 | int32 | int64 | float32 | float64.

Definition dtype_eqb (a b : DType) : bool :=
match a, b with
| bool_, bool_ | uint8, uint8 | int32, int32
| int64, int64 | float32, float32 | float64, float64 => true
| _, _ => false
end.

(** [np.promote_types] on the dtypes above. *)
Definition promote_types (a b : DType) : DType :=
match a, b with
| bool_, x | x, bool_ => x
| float64, _ | _, float64 => float64
| float32, uint8 | uint8, float32 | float32, float32 => float32
| float32, _ | _, float32 => float64
| int64, _ | _, int64 => int64
| int32, _ | _, int32 => int32
| uint8, uint8 => uint8
end.

Section Arrays.

Variable E : Type.

Record ndarray : Type := mk_ndarray {
  shape : list nat;
  dtype : DType;
  data : list E
}.

Definition prod_shape (s : list nat) : nat := fold_right Nat.mul 1 s.

(** Every array numpy builds holds as many elements as its shape says. *)
Definition well_formed (a : ndarray) : Prop :=
  length (data a) = prod_shape (shape a).

(** The [i]-th block of [k] elements of a row-major buffer. *)
Definition chunk (k i : nat) (d : list E) : list E :=
  firstn k (skipn (i * k) d).

(** [a[None, ...]] *)
Definition expand_dims0 (a : ndarray) : ndarray :=
  {| shape := 1 :: shape a; dtype := dtype a; data := data a |}.

(** [a[i]] for an integer [0 <= i]. *)
Definition getitem0 (a : ndarray) (i : nat) : Exc ndarray :=
  match shape a with
  | [] => Raise IndexError
  | m :: s =>
      if i <? m
      then Ok {| shape := s; dtype := dtype a;
                 data := chunk (prod_shape s) i (data a) |}
      else Raise IndexError
  end.

(** [a[:k]] *)
Definition slice0_to (a : ndarray) (k : nat) : Exc ndarray :=
  match shape a with
  | [] => Raise IndexError
  | m :: s =>
      Ok {| shape := Nat.min k m :: s; dtype := dtype a;
            data := firstn (Nat.min k m * prod_shape s) (data a) |}
  end.

(** [np.repeat(a, n, axis=0)]: every item along axis 0 is repeated [n]
    times in place.  An array without axes has no axis 0: numpy raises
    [AxisError], a [ValueError]. *)
Definition repeat (a : ndarray) (n : nat) : Exc ndarray :=
  match shape a with
  | [] => Raise ValueError
  | m :: s =>
      Ok {| shape := m * n :: s; dtype := dtype a;
            data := flat_map
                      (fun i => concat (List.repeat
                                          (chunk (prod_shape s) i (data a)) n))
                      (seq 0 m) |}
  end.

Definition shape_eqb (s t : list nat) : bool :=
  if list_eq_dec Nat.eq_dec s t then true else false.

(** [np.stack(arrays, axis=0)]: at least one array, all of one shape. *)
Definition stack (arrays : list ndarray) : Exc ndarray :=
  match arrays with
  | [] => Raise ValueError
  | a :: rest =>
      if forallb (fun b => shape_eqb (shape b) (shape a)) rest
      then Ok {| shape := length arrays :: shape a;
                 dtype := fold_left promote_types (map dtype rest) (dtype a);
                 data := concat (map data arrays) |}
      else Raise ValueError
  end.

(** [np.concatenate([a, b], axis=0)] *)
Definition concatenate (a b : ndarray) : Exc ndarray :=
  match shape a, shape b with
  | m :: s, m' :: s' =>
      if shape_eqb s s'
      then Ok {| shape := m + m' :: s;
                 dtype := promote_types (dtype a) (dtype b);
                 data := data a ++ data b |}
      else Raise ValueError
  | _, _ => Raise ValueError
  end.

(** Frames that share a shape and a dtype and are well formed. *)
Definition uniform (s : list nat) (d : DType) (h : list ndarray) : Prop :=
  Forall (fun a => shape a = s /\ dtype a = d /\ well_formed a) h.

End Arrays.

Arguments mk_ndarray {E} shape dtype data.
Arguments shape {E} n.
Arguments dtype {E} n.
Arguments data {E} n.

End np.

(** ** Python sequences

    The sources hold frames in [list]s and in [collections.deque]s and
    hand both to the same code.  A [list] supports [seq[-n:]]; a [deque]
    supports [len], iteration and integer indexing, and raises
    [TypeError] on a slice. *)

Module py.

Section Sequences.

Variable A : Type.

Record deque : Type := mk_deque {
  maxlen : nat;
  items : list A
}.

(** [deque(maxlen=m)] *)
Definition deque_new (m : nat) : deque := {| maxlen := m; items := [] |}.

(** [d.append(x)]: the oldest items leave on the left once the deque
    is full. *)
Definition deque_append (d : deque) (x : A) : deque :=
  let l := items d ++ [x] in
  {| maxlen := maxlen d; items := skipn (length l - maxlen d) l |}.

Inductive seq_obj : Type :=
| List_ (l : list A)
| Deque_ (d : deque).

(** [list(s)] *)
Definition to_list (s : seq_obj) : list A :=
  match s with
  | List_ l => l
  | Deque_ d => items d
  end.

(** [len(s)] *)
Definition len (s : seq_obj) : nat := length (to_list s).

(** [l[-n:]] on a list: [-0] is [0], so [l[-0:]] is the whole list. *)
Definition list_last_n (l : list A) (n : nat) : list A :=
  match n with
  | 0 => l
  | _ => skipn (length l - n) l
  end.

(** [s[-n:]] *)
Definition getitem_last_n (s : seq_obj) (n : nat) : Exc seq_obj :=
  match s with
  | List_ l => Ok (List_ (list_last_n l n))
  | Deque_ _ => Raise TypeError
  end.

(** Truth value of [l and l[-1]] for a list of booleans. *)
Definition nonempty_and_last (l : list bool) : bool :=
  match l with
  | [] => false
  | _ => last l false
  end.

(** The deque shows the last [m] values of the history [hist]. *)
Definition shows (m : nat) (hist : list A) (d : deque) : Prop :=
  maxlen d = m /\ items d = skipn (length hist - m) hist.

End Sequences.

Arguments mk_deque {A} maxlen items.
Arguments List_ {A} l.
Arguments Deque_ {A} d.

(** [d.setdefault(k, v0)] followed by an update of the value found, on a
    dict kept as its items in insertion order. *)
Fixpoint dict_setdefault_update {V : Type} (d : list (string * V)) (k : string)
    (v0 : V) (f : V -> V) : list (string * V) :=
  match d with
  | [] => [(k, f v0)]
  | (k', v) :: rest =>
      if String.eqb k' k then (k', f v) :: rest
      else (k', v) :: dict_setdefault_update rest k v0 f
  end.

(** [d.get(k)] *)
Fixpoint dict_get {V : Type} (d : list (string * V)) (k : string) : option V :=
  match d with
  | [] => None
  | (k', v) :: rest => if String.eqb k' k then Some v else dict_get rest k
  end.

(** [{k: f(v) for k, v in d.items()}] for an [f] that may raise: the
    values are computed in the order of the items, and the first exception
    ends the comprehension. *)
Fixpoint dict_comprehension {V W : Type} (f : V -> Exc W) (d : list (string * V))
    : Exc (list (string * W)) :=
  match d with
  | [] => Ok []
  | (k, v) :: rest =>
      v' <- f v ;;
      rest' <- dict_comprehension f rest ;;
      Ok ((k, v') :: rest')
  end.

(** [list(d.keys())] *)
Definition dict_keys {V : Type} (d : list (string * V)) : list string :=
  map fst d.

(** [sorted(d.items())] for a dict with string keys: the items in the
    order of their keys, strings being compared character by character by
    code point.  The keys of a dict are distinct, so that the values are
    never compared. *)
Fixpoint insert_item {V : Type} (kv : string * V) (l : list (string * V))
    : list (string * V) :=
  match l with
  | [] => [kv]
  | kv' :: rest =>
      if String.leb (fst kv) (fst kv') then kv :: l
      else kv' :: insert_item kv rest
  end.

Definition sorted_items {V : Type} (d : list (string * V)) : list (string * V) :=
  fold_right insert_item [] d.

(** [k in d] *)
Definition dict_contains {V : Type} (d : list (string * V)) (k : string) : bool :=
  existsb (String.eqb k) (dict_keys d).

End py.

(** ** multistep/space_utils.py *)

Module space_utils.

Section SpaceUtils.

Variable E : Type.

Notation ndarray := (np.ndarray E).

(** A [spaces.Box] object: its attributes [low], [high] and [dtype];
    [box.shape] is the shape of its bounds. *)
Record Box : Type := mk_Box {
  low : ndarray;
  high : ndarray;
  box_dtype : np.DType
}.

Definition box_shape (b : Box) : list nat := np.shape (low b).

(** A gymnasium space: a [Box], a [Dict] with its items in the order in
    which [space.items()] lists them, or a space of another class, named
    by its class. *)
Inductive Space : Type :=
| Box_ (b : Box)
| Dict_ (d : list (string * Space))
| Other_ (cls : string).

(** The constructor [spaces.Box(low=..., high=..., dtype=...)].  It
    belongs to gymnasium, which converts the bounds to the dtype and
    rejects some of them; it is a parameter of the functions that call
    it, and [gymnasium.spaces_Box] below gives it on arrays of integers. *)
Variable spaces_Box : ndarray -> ndarray -> np.DType -> Exc Box.

(** The constructor [spaces.Dict(d)] on a plain dict: gymnasium keeps the
    items sorted by key. *)
Definition spaces_Dict (d : list (string * Space)) : Space :=
  Dict_ (py.sorted_items d).

Definition repeated_box (box : Box) (n : nat) : Exc Box :=
  rep <- np.repeat (np.expand_dims0 (low box)) n ;;
  rep_high <- np.repeat (np.expand_dims0 (high box)) n ;;
  spaces_Box rep rep_high np.uint8.

Fixpoint repeated_space (space : Space) (n : nat) : Exc Space :=
  match space with
  | Box_ b => b' <- repeated_box b n ;; Ok (Box_ b')
  | Dict_ d =>
      d' <- (fix comprehension (kvs : list (string * Space))
               : Exc (list (string * Space)) :=
               match kvs with
               | [] => Ok []
               | (k, v) :: rest =>
                   v' <- repeated_space v n ;;
                   rest' <- comprehension rest ;;
                   Ok ((k, v') :: rest')
               end) d ;;
      Ok (spaces_Dict d')
  | Other_ _ => Raise TypeError
  end.

Definition stack_last (arr : py.seq_obj ndarray) (n : nat) : Exc ndarray :=
  let pad := Z.to_nat (Z.max 0 (Z.of_nat n - Z.of_nat (py.len arr))) in
  tail <- py.getitem_last_n arr n ;;
  core <- np.stack (py.to_list tail) ;;
  match pad with
  | 0 => Ok core
  | _ =>
      first <- np.slice0_to core 1 ;;
      pad_block <- np.repeat first pad ;;
      np.concatenate pad_block core
  end.

(** The frames the stacking is specified to return: the last [n] frames
    of the history, preceded by copies of its first frame when it holds
    fewer than [n]. *)
Definition stack_last_ref (h : list ndarray) (n : nat) : list ndarray :=
  match h with
  | [] => []
  | h0 :: _ => List.repeat h0 (n - length h) ++ skipn (length h - n) h
  end.

(** Every leaf of the space is a [Box]. *)
Fixpoint boxes_only (space : Space) : bool :=
  match space with
  | Box_ _ => true
  | Dict_ d => forallb (fun kv => boxes_only (snd kv)) d
  | Other_ _ => false
  end.

(** The boxes of a space, in the order of its items. *)
Fixpoint boxes (space : Space) : list Box :=
  match space with
  | Box_ b => [b]
  | Dict_ d => flat_map (fun kv => boxes (snd kv)) d
  | Other_ _ => []
  end.

End SpaceUtils.

Arguments mk_Box {E} low high box_dtype.
Arguments Box_ {E} b.
Arguments Dict_ {E} d.
Arguments Other_ {E} cls.

End space_utils.

(** ** gymnasium's [spaces.Box] on arrays of integers

    The constructor of gymnasium 1.x, for bounds given as two arrays: it
    raises [ValueError] when the shapes of the bounds differ, when a bound
    of another dtype lies outside the range of the dtype asked for, and
    when a lower bound exceeds its upper bound; otherwise the box holds
    the bounds converted to the dtype.  An array of floats is an array of
    the integers its elements are equal to. *)

Module gymnasium.

Local Open Scope Z_scope.

Section Spaces.

(** numpy's conversion of a value from one dtype to another, where the
    conversion does not keep the value: integers wrap around, floats are
    rounded, and the conversion of a float outside the range of an integer
    dtype is left to the platform. *)
Variable c_cast : np.DType -> np.DType -> Z -> Z.

Definition dtype_min (d : np.DType) : Z :=
  match d with
  | np.bool_ => 0
  | np.uint8 => 0
  | np.int32 => - 2 ^ 31
  | np.int64 => - 2 ^ 63
  | np.float32 => - (2 ^ 128 - 2 ^ 104)
  | np.float64 => - (2 ^ 1024 - 2 ^ 971)
  end.

Definition dtype_max (d : np.DType) : Z :=
  match d with
  | np.bool_ => 1
  | np.uint8 => 255
  | np.int32 => 2 ^ 31 - 1
  | np.int64 => 2 ^ 63 - 1
  | np.float32 => 2 ^ 128 - 2 ^ 104
  | np.float64 => 2 ^ 1024 - 2 ^ 971
  end.

(** The values of the dtype [d]. *)
Definition in_range (d : np.DType) (v : Z) : Prop :=
  dtype_min d <= v <= dtype_max d.

(** The values every conversion to [d] keeps: those in the range of [d]
    and, for a float dtype, small enough to be represented exactly. *)
Definition keeps_value (d : np.DType) (v : Z) : bool :=
  (dtype_min d <=? v) && (v <=? dtype_max d)
  && match d with
     | np.float32 => Z.abs v <=? 2 ^ 24
     | np.float64 => Z.abs v <=? 2 ^ 53
     | _ => true
     end.

(** [a.astype(d)] *)
Definition astype (a : np.ndarray Z) (d : np.DType) : np.ndarray Z :=
  if np.dtype_eqb (np.dtype a) d then a
  else {| np.shape := np.shape a;
          np.dtype := d;
          np.data := map (fun v => if keeps_value d v then v
                                   else c_cast (np.dtype a) d v)
                         (np.data a) |}.

(** [np.any(a > b)] for two arrays of one shape. *)
Definition any_gt (a b : np.ndarray Z) : bool :=
  existsb (fun ab => snd ab <? fst ab) (combine (np.data a) (np.data b)).

Definition spaces_Box (low high : np.ndarray Z) (dtype : np.DType)
    : Exc (space_utils.Box Z) :=
  if negb (np.shape_eqb (np.shape low) (np.shape high)) then Raise ValueError
  else if negb (np.dtype_eqb (np.dtype low) dtype)
          && existsb (fun v => v <? dtype_min dtype) (np.data low)
  then Raise ValueError
  else if negb (np.dtype_eqb (np.dtype high) dtype)
          && existsb (fun v => dtype_max dtype <? v) (np.data high)
  then Raise ValueError
  else
    let low' := astype low dtype in
    let high' := astype high dtype in
    if any_gt low' high' then Raise ValueError
    else Ok (space_utils.mk_Box low' high' dtype).

End Spaces.

(** The conversion on a platform where floats wrap around like integers
    (two's complement, truncated to the width of the dtype). *)
Definition wrap_cast (src dst : np.DType) (v : Z) : Z :=
  match dst with
  | np.bool_ => if v =? 0 then 0 else 1
  | np.uint8 => v mod 256
  | np.int32 => (v + 2 ^ 31) mod 2 ^ 32 - 2 ^ 31
  | np.int64 => (v + 2 ^ 63) mod 2 ^ 64 - 2 ^ 63
  | _ => v
  end.

End gymnasium.

(** ** Reductions of numpy over a list of scalars

    [amax], [amin], [mean] and [sum_] give the value numpy computes on a
    non-empty list of rewards; the scalar type and its arithmetic stay a
    parameter.  [np.max] and [np.min] raise [ValueError] on an empty
    list, [np.mean] and [np.sum] return a value there. *)

Module reductions.

Record Scalars : Type := mk_Scalars {
  scalar : Type;
  amax : list scalar -> scalar;
  amin : list scalar -> scalar;
  mean : list scalar -> scalar;
  sum_ : list scalar -> scalar
}.

Section Reduce.

Variable S : Scalars.

Definition np_max (l : list (scalar S)) : Exc (scalar S) :=
  match l with
  | [] => Raise ValueError
  | _ => Ok (amax S l)
  end.

Definition np_min (l : list (scalar S)) : Exc (scalar S) :=
  match l with
  | [] => Raise ValueError
  | _ => Ok (amin S l)
  end.

Definition np_mean (l : list (scalar S)) : Exc (scalar S) := Ok (mean S l).

Definition np_sum (l : list (scalar S)) : Exc (scalar S) := Ok (sum_ S l).

End Reduce.

(** [np.max] of a list of booleans. *)
Definition np_max_bool (l : list bool) : Exc bool :=
  match l with
  | [] => Raise ValueError
  | _ => Ok (existsb (fun d => d) l)
  end.

(** IEEE binary64 scalars.  The reductions accumulate from left to right,
    which is numpy's result whenever the partial results are exact. *)
Definition is_nan (x : float) : bool := negb (PrimFloat.eqb x x).

Definition maximum (a b : float) : float :=
  if PrimFloat.leb b a || is_nan a then a else b.

Definition minimum (a b : float) : float :=
  if PrimFloat.leb a b || is_nan a then a else b.

Definition float_reduce (op : float -> float -> float) (l : list float) : float :=
  match l with
  | [] => PrimFloat.nan
  | x :: rest => fold_left op rest x
  end.

Definition float_sum (l : list float) : float := fold_left PrimFloat.add l 0%float.

Definition float_mean (l : list float) : float :=
  PrimFloat.div (float_sum l) (PrimFloat.of_uint63 (Uint63.of_Z (Z.of_nat (length l)))).

Definition binary64 : Scalars :=
  {| scalar := float;
     amax := float_reduce maximum;
     amin := float_reduce minimum;
     mean := float_mean;
     sum_ := float_sum |}.

End reductions.

(** ** multistep/buffers.py *)

Module buffers.

Section Buffers.

Variable E : Type.
Variable S : reductions.Scalars.

Notation ndarray := (np.ndarray E).
Notation R := (reductions.scalar S).

Record StepBuffers : Type := mk_StepBuffers {
  n_obs : nat;
  obs : py.deque ndarray;
  rewards : list R;
  dones : list bool;
  infos : list (string * py.deque ndarray)
}.

(** [StepBuffers(n_obs)]: the dataclass defaults, then [__post_init__]. *)
Definition StepBuffers_new (n : nat) : StepBuffers :=
  {| n_obs := n;
     obs := py.deque_new ndarray (n + 1);
     rewards := [];
     dones := [];
     infos := [] |}.

Definition add_obs (self : StepBuffers) (o : ndarray) : StepBuffers :=
  {| n_obs := n_obs self;
     obs := py.deque_append (obs self) o;
     rewards := rewards self;
     dones := dones self;
     infos := infos self |}.

(** The reward arrives as a scalar already, so [float(r)] is [r]. *)
Definition add_reward (self : StepBuffers) (r : R) : StepBuffers :=
  {| n_obs := n_obs self;
     obs := obs self;
     rewards := rewards self ++ [r];
     dones := dones self;
     infos := infos self |}.

Definition add_done (self : StepBuffers) (d : bool) : StepBuffers :=
  {| n_obs := n_obs self;
     obs := obs self;
     rewards := rewards self;
     dones := dones self ++ [d];
     infos := infos self |}.

Definition add_info (self : StepBuffers) (info : list (string * ndarray)) : StepBuffers :=
  {| n_obs := n_obs self;
     obs := obs self;
     rewards := rewards self;
     dones := dones self;
     infos := fold_left
                (fun d kv =>
                   py.dict_setdefault_update d (fst kv)
                     (py.deque_new ndarray (n_obs self + 1))
                     (fun w => py.deque_append w (snd kv)))
                info (infos self) |}.

Definition agg_fn_map : list (string * (list R -> Exc R)) :=
  [ ("max"%string, reductions.np_max S);
    ("min"%string, reductions.np_min S);
    ("mean"%string, reductions.np_mean S);
    ("sum"%string, reductions.np_sum S) ].

Definition reduce (self : StepBuffers) (agg : string) : Exc (R * bool) :=
  match py.dict_get agg_fn_map agg with
  | None => Raise ValueError
  | Some agg_fn =>
      reward <- agg_fn (rewards self) ;;
      done <- reductions.np_max_bool (dones self) ;;
      Ok (reward, done)
  end.

End Buffers.

Definition supported (mode : string) : Prop :=
  In mode ["max"; "min"; "mean"; "sum"]%string.

Arguments mk_StepBuffers {E S} n_obs obs rewards dones infos.

End buffers.

(** ** multistep/wrapper.py *)

Module wrapper.

Section Wrapper.

Variable E : Type.
Variable S : reductions.Scalars.
Variables EnvState Act Kw : Type.

Notation ndarray := (np.ndarray E).
Notation R := (reductions.scalar S).
Notation Space := (space_utils.Space E).
Notation StepBuffers := (@buffers.StepBuffers E S).

(** What the wrapped environment's [step] returns. *)
Record StepOut : Type := mk_StepOut {
  out_obs : ndarray;
  out_rew : R;
  out_terminated : bool;
  out_truncated : bool;
  out_info : list (string * ndarray)
}.

(** The wrapped environment: its two spaces and its two methods, as
    functions of the environment's own state. *)
Record Env : Type := mk_Env {
  env_observation_space : Space;
  env_action_space : Space;
  env_reset : EnvState -> Kw -> EnvState * ndarray;
  env_step : EnvState -> Act -> EnvState * StepOut
}.

Variable gym_env : Env.

(** gymnasium's [spaces.Box], which [repeated_space] calls. *)
Variable spaces_Box : ndarray -> ndarray -> np.DType -> Exc (space_utils.Box E).

(** The environment object the wrapper holds: its state, and the record
    of the calls made on it so far, which the sources do not keep and the
    properties below count. *)
Inductive Call : Type :=
| CallReset (kw : Kw)
| CallStep (a : Act) (out : StepOut).

Record EnvObj : Type := mk_EnvObj {
  env_state : EnvState;
  env_calls : list Call
}.

Definition call_reset (e : EnvObj) (kw : Kw) : EnvObj * ndarray :=
  let (s, o) := env_reset gym_env (env_state e) kw in
  ({| env_state := s; env_calls := env_calls e ++ [CallReset kw] |}, o).

Definition call_step (e : EnvObj) (a : Act) : EnvObj * StepOut :=
  let (s, out) := env_step gym_env (env_state e) a in
  ({| env_state := s; env_calls := env_calls e ++ [CallStep a out] |}, out).

Definition is_step (c : Call) : bool :=
  match c with CallStep _ _ => true | CallReset _ => false end.

(** Number of times [env.step] was invoked. *)
Definition step_count (e : EnvObj) : nat :=
  length (filter is_step (env_calls e)).

Record MultiStep : Type := mk_MultiStep {
  env : EnvObj;
  n_obs : nat;
  n_action : nat;
  reward_reduce : string;
  max_ep : option Z;
  _obs_space : Space;
  _act_space : Space;
  buf : StepBuffers
}.

Definition __init__ (e : EnvObj) (n_obs n_action : nat) (reward_reduce : string)
    (max_episode_steps : option Z) : Exc MultiStep :=
  obs_space <- space_utils.repeated_space spaces_Box
                 (env_observation_space gym_env) n_obs ;;
  act_space <- space_utils.repeated_space spaces_Box
                 (env_action_space gym_env) n_action ;;
  Ok {| env := e;
        n_obs := n_obs;
        n_action := n_action;
        reward_reduce := reward_reduce;
        max_ep := max_episode_steps;
        _obs_space := obs_space;
        _act_space := act_space;
        buf := buffers.StepBuffers_new E S n_obs |}.

(** *** Names and attributes

    A property body evaluates a name, then possibly an attribute of the
    value found.  A name is looked up among the locals of the call, then
    among the names bound at the top of wrapper.py (none of the builtins
    is involved here). *)
Inductive value : Type :=
| V_self (w : MultiStep)
| V_space (s : Space)
| V_global (name : string).

Definition module_globals : list string :=
  [ "annotations"; "gym"; "spaces"; "repeated_space"; "stack_last";
    "StepBuffers"; "Sequence"; "Tuple"; "Mapping"; "np"; "MultiStep" ]%string.

Definition load_name (locals : list (string * value)) (name : string) : Exc value :=
  match py.dict_get locals name with
  | Some v => Ok v
  | None =>
      if existsb (String.eqb name) module_globals
      then Ok (V_global name)
      else Raise NameError
  end.

Definition get_attr (v : value) (attr : string) : Exc value :=
  match v with
  | V_self w =>
      if String.eqb attr "_obs_space" then Ok (V_space (_obs_space w))
      else if String.eqb attr "_act_space" then Ok (V_space (_act_space w))
      else Raise AttributeError
  | _ => Raise AttributeError
  end.

(** [return self._obs_space] *)
Definition observation_space (self : MultiStep) : Exc value :=
  v <- load_name [("self"%string, V_self self)] "self" ;;
  get_attr v "_obs_space".

(** [return self_act_space] *)
Definition action_space (self : MultiStep) : Exc value :=
  load_name [("self"%string, V_self self)] "self_act_space".

(** *** reset and step *)

Definition set_buf (self : MultiStep) (e : EnvObj) (b : StepBuffers) : MultiStep :=
  {| env := e;
     n_obs := n_obs self;
     n_action := n_action self;
     reward_reduce := reward_reduce self;
     max_ep := max_ep self;
     _obs_space := _obs_space self;
     _act_space := _act_space self;
     buf := b |}.

(** [self.buf.obs] is a deque, and the slice is taken of it before
    [list] is applied. *)
Definition _stack_obs (self : MultiStep) : Exc ndarray :=
  head <- py.getitem_last_n (py.Deque_ (buffers.obs (buf self))) (n_obs self) ;;
  space_utils.stack_last (py.List_ (py.to_list head)) (n_obs self).

Definition reset (self : MultiStep) (kw : Kw) : MultiStep * Exc ndarray :=
  let (e, o) := call_reset (env self) kw in
  let self := set_buf self e (buffers.StepBuffers_new E S (n_obs self)) in
  let self := set_buf self e (buffers.add_obs (buf self) o) in
  (self, _stack_obs self).

(** One pass of the loop body (lines 128 to 133). *)
Definition inner_step (self : MultiStep) (sub_act : Act) : MultiStep :=
  let (e, out) := call_step (env self) sub_act in
  let done := out_terminated out || out_truncated out in
  let b := buffers.add_obs (buf self) (out_obs out) in
  let b := buffers.add_reward b (out_rew out) in
  let b := buffers.add_done b done in
  let b := buffers.add_info b (out_info out) in
  set_buf self e b.

(** The [for] loop (lines 125 to 133), with its [break]. *)
Fixpoint inner_loop (self : MultiStep) (action : list Act) : MultiStep :=
  match action with
  | [] => self
  | sub_act :: rest =>
      if py.nonempty_and_last (buffers.dones (buf self)) then self
      else inner_loop (inner_step self sub_act) rest
  end.

(** [self.max_ep and len(self.buf.rewards) >= self.max_ep] *)
Definition ceiling_reached (self : MultiStep) : bool :=
  match max_ep self with
  | None => false
  | Some k =>
      negb (k =? 0)%Z && (k <=? Z.of_nat (length (buffers.rewards (buf self))))%Z
  end.

(** Lines 135 to 137: the reward and the flag the call goes on to return. *)
Definition aggregate (self : MultiStep) : Exc (R * bool) :=
  rd <- buffers.reduce (buf self) (reward_reduce self) ;;
  let d_red := if ceiling_reached self then true else snd rd in
  Ok (fst rd, d_red).

(** The dict comprehension of the [return]. *)
Fixpoint stack_infos (kvs : list (string * py.deque ndarray)) (n : nat)
    : Exc (list (string * ndarray)) :=
  match kvs with
  | [] => Ok []
  | (k, v) :: rest =>
      a <- space_utils.stack_last (py.Deque_ v) n ;;
      rest' <- stack_infos rest n ;;
      Ok ((k, a) :: rest')
  end.

Record StepResult : Type := mk_StepResult {
  stacked_obs : ndarray;
  reward : R;
  done : bool;
  info : list (string * ndarray)
}.

Definition step (self : MultiStep) (action : list Act) : MultiStep * Exc StepResult :=
  if negb (length action =? n_action self) then (self, Raise AssertionError)
  else
    let self := inner_loop self action in
    (self,
     rd <- aggregate self ;;
     o <- _stack_obs self ;;
     i <- stack_infos (buffers.infos (buf self)) (n_obs self) ;;
     Ok {| stacked_obs := o; reward := fst rd; done := snd rd; info := i |}).

(** *** Histories of calls *)

Inductive Op : Type :=
| OpReset (kw : Kw)
| OpStep (action : list Act).

Definition apply_op (self : MultiStep) (op : Op) : MultiStep :=
  match op with
  | OpReset kw => fst (reset self kw)
  | OpStep action => fst (step self action)
  end.

Definition run (self : MultiStep) (ops : list Op) : MultiStep :=
  fold_left apply_op ops self.

(** The states a wrapper goes through: built by [__init__], then any
    sequence of [reset] and [step] calls, whether they return or raise. *)
Inductive reachable : MultiStep -> Prop :=
| reach_init e n_obs n_action mode ceiling w :
    __init__ e n_obs n_action mode ceiling = Ok w -> reachable w
| reach_op w op : reachable w -> reachable (apply_op w op).

(** *** Vocabulary of the properties *)

(** The rewards returned by the [step] calls of a record of calls. *)
Definition step_rewards (calls : list Call) : list R :=
  flat_map (fun c => match c with
                     | CallStep _ out => [out_rew out]
                     | CallReset _ => []
                     end) calls.

(** The actions, the flags and the observations of the [step] calls of
    a record of calls. *)
Definition step_actions (calls : list Call) : list Act :=
  flat_map (fun c => match c with
                     | CallStep a _ => [a]
                     | CallReset _ => []
                     end) calls.

Definition step_dones (calls : list Call) : list bool :=
  flat_map (fun c => match c with
                     | CallStep _ out => [out_terminated out || out_truncated out]
                     | CallReset _ => []
                     end) calls.

Definition step_obs (calls : list Call) : list ndarray :=
  flat_map (fun c => match c with
                     | CallStep _ out => [out_obs out]
                     | CallReset _ => []
                     end) calls.

(** A window of the buffer holds at most [n + 1] values. *)
Definition window_ok (n : nat) (d : py.deque ndarray) : Prop :=
  py.maxlen d = n + 1 /\ length (py.items d) <= n + 1.

Definition buffers_ok (w : MultiStep) : Prop :=
  buffers.n_obs (buf w) = n_obs w
  /\ window_ok (n_obs w) (buffers.obs (buf w))
  /\ Forall (fun kv => window_ok (n_obs w) (snd kv)) (buffers.infos (buf w))
  /\ length (buffers.rewards (buf w)) = length (buffers.dones (buf w)).

(** Two states of one wrapper: what the constructor stored is the same. *)
Definition same_config (w w' : MultiStep) : Prop :=
  n_obs w' = n_obs w
  /\ n_action w' = n_action w
  /\ reward_reduce w' = reward_reduce w
  /\ max_ep w' = max_ep w
  /\ _obs_space w' = _obs_space w
  /\ _act_space w' = _act_space w.

(** No flag but the last one recorded is true. *)
Definition only_last_done (dones : list bool) : Prop :=
  existsb (fun d => d) (removelast dones) = false.

(** The environment never reports [terminated] or [truncated]. *)
Definition never_terminates : Prop :=
  forall s a,
    out_terminated (snd (env_step gym_env s a))
    || out_truncated (snd (env_step gym_env s a)) = false.

End Wrapper.

Arguments V_self {E S EnvState Act Kw} w.
Arguments V_space {E S EnvState Act Kw} s.
Arguments V_global {E S EnvState Act Kw} name.

End wrapper.

(** ** A small environment to run the wrapper on

    Frames are two bytes, the action space is a box of bytes of shape
    (3,), and the environment counts its steps: the first step pays 5.0, the later
    ones 1.0, and [term_at t] says whether step number [t] terminates. *)

Module demo.

Definition frame (v : Z) : np.ndarray Z :=
  np.mk_ndarray [2] np.uint8 [v; (v + 1)%Z].

Definition obs_box : space_utils.Box Z :=
  space_utils.mk_Box (np.mk_ndarray [2] np.uint8 [0; 0]%Z)
                     (np.mk_ndarray [2] np.uint8 [255; 255]%Z) np.uint8.

Definition act_box : space_utils.Box Z :=
  space_utils.mk_Box (np.mk_ndarray [3] np.uint8 [0; 0; 0]%Z)
                     (np.mk_ndarray [3] np.uint8 [1; 2; 3]%Z) np.uint8.

(** A box of floats between -1 and 1, of shape (3,). *)
Definition float_box : space_utils.Box Z :=
  space_utils.mk_Box (np.mk_ndarray [3] np.float32 [-1; -1; -1]%Z)
                     (np.mk_ndarray [3] np.float32 [1; 1; 1]%Z) np.float32.

(** gymnasium's constructor, on a platform where conversions wrap around. *)
Definition spaces_Box : np.ndarray Z -> np.ndarray Z -> np.DType
                        -> Exc (space_utils.Box Z) :=
  gymnasium.spaces_Box gymnasium.wrap_cast.

Definition env (term_at : nat -> bool)
    : wrapper.Env Z reductions.binary64 nat nat unit :=
  wrapper.mk_Env
    (space_utils.Box_ obs_box) (space_utils.Box_ act_box)
    (fun _ _ => (0, frame 0))
    (fun t _ =>
       (S t,
        wrapper.mk_StepOut reductions.binary64
          (frame (Z.of_nat (S t)))
          (if t =? 0 then 5.0%float else 1.0%float)
          (term_at t) false
          [("t"%string, frame (Z.of_nat t))])).

Definition never_done : wrapper.Env Z reductions.binary64 nat nat unit :=
  env (fun _ => false).

Definition done_at_once : wrapper.Env Z reductions.binary64 nat nat unit :=
  env (fun _ => true).

Definition fresh_env : wrapper.EnvObj Z reductions.binary64 nat nat unit :=
  wrapper.mk_EnvObj 0 [].

(** [MultiStep(env, n_obs, n_action, mode, ceiling)] for an environment
    whose spaces are boxes of uint8 bounds, so that the constructor
    returns. *)
Definition make (e : wrapper.Env Z reductions.binary64 nat nat unit)
    (n_obs n_action : nat) (mode : string) (ceiling : option Z)
    : wrapper.MultiStep Z reductions.binary64 nat nat unit :=
  match wrapper.__init__ e spaces_Box fresh_env n_obs n_action mode ceiling with
  | Ok w => w
  | Raise _ =>
      wrapper.mk_MultiStep fresh_env n_obs n_action mode ceiling
        (space_utils.Other_ "") (space_utils.Other_ "")
        (buffers.StepBuffers_new Z reductions.binary64 n_obs)
  end.

(** An episode without termination: [reset], then two macro-steps of one
    action each, reducing with [max]. *)
Definition episode_start : wrapper.MultiStep Z reductions.binary64 nat nat unit :=
  fst (wrapper.reset never_done (make never_done 2 1 "max" None) tt).

Definition after_first : wrapper.MultiStep Z reductions.binary64 nat nat unit :=
  fst (wrapper.step never_done episode_start [0]).

Definition after_second : wrapper.MultiStep Z reductions.binary64 nat nat unit :=
  fst (wrapper.step never_done after_first [0]).

(** An episode that ends on its first inner step, with three actions per
    macro-step. *)
Definition short_start : wrapper.MultiStep Z reductions.binary64 nat nat unit :=
  fst (wrapper.reset done_at_once (make done_at_once 2 3 "max" None) tt).

Definition short_end : wrapper.MultiStep Z reductions.binary64 nat nat unit :=
  fst (wrapper.step done_at_once short_start [7; 8; 9]).

(** A nested dictionary of boxes, and one with a space of another class
    inside. *)
Definition dict_space : space_utils.Space Z :=
  space_utils.Dict_
    [ ("image"%string, space_utils.Box_ obs_box);
      ("robot"%string,
       space_utils.Dict_ [("joints"%string, space_utils.Box_ act_box)]) ].

Definition mixed_space : space_utils.Space Z :=
  space_utils.Dict_
    [ ("image"%string, space_utils.Box_ obs_box);
      ("gripper"%string, space_utils.Other_ "Discrete") ].

(** A dictionary whose items are not in the order of their keys, and one
    that holds the box of floats. *)
Definition unsorted_space : space_utils.Space Z :=
  space_utils.Dict_
    [ ("robot"%string, space_utils.Box_ act_box);
      ("image"%string, space_utils.Box_ obs_box);
      ("goal"%string, space_utils.Box_ obs_box) ].

Definition float_space : space_utils.Space Z :=
  space_utils.Dict_
    [ ("image"%string, space_utils.Box_ obs_box);
      ("torque"%string, space_utils.Box_ float_box) ].

(** An episode with a ceiling of five steps, two actions per macro-step. *)
Definition capped_start : wrapper.MultiStep Z reductions.binary64 nat nat unit :=
  fst (wrapper.reset never_done (make never_done 2 2 "sum" (Some 5%Z)) tt).

End demo.

(** * Properties *)

(** ** Arrays *)

Section ArrayFacts.

Variable E : Type.

Notation ndarray := (np.ndarray E).

Lemma promote_types_idem (d : np.DType) : np.promote_types d d = d.
Proof. destruct d; reflexivity. Qed.

Lemma fold_promote_same (d : np.DType) (l : list np.DType) :
  Forall (fun x => x = d) l -> fold_left np.promote_types l d = d.
Proof.
  induction 1 as [|x l Hx _ IH]; simpl; [reflexivity|].
  subst x. rewrite promote_types_idem. exact IH.
Qed.

Lemma shape_eqb_refl (s : list nat) : np.shape_eqb s s = true.
Proof. unfold np.shape_eqb. destruct (list_eq_dec Nat.eq_dec s s); congruence. Qed.

Lemma chunk_concat (k : nat) (ds : list (list E)) :
  Forall (fun d => length d = k) ds ->
  forall i, i < length ds -> np.chunk k i (concat ds) = nth i ds [].
Proof.
  unfold np.chunk.
  induction 1 as [|d ds Hd _ IH]; intros i Hi; simpl in Hi; [lia|].
  destruct i as [|i]; simpl.
  - rewrite firstn_app, Hd, Nat.sub_diag, <- Hd, firstn_all. simpl.
    apply app_nil_r.
  - rewrite skipn_app.
    rewrite (skipn_all2 d) by (rewrite Hd; lia).
    rewrite Hd. replace (k + i * k - k) with (i * k) by lia.
    simpl. apply IH. lia.
Qed.

Lemma concat_repeat_length (d : list E) (n : nat) :
  length (concat (List.repeat d n)) = n * length d.
Proof. induction n; simpl; [reflexivity|]. rewrite length_app, IHn. reflexivity. Qed.

Lemma uniform_app s d (h1 h2 : list ndarray) :
  np.uniform s d h1 -> np.uniform s d h2 -> np.uniform s d (h1 ++ h2).
Proof. unfold np.uniform. intros. apply Forall_app. split; assumption. Qed.

Lemma uniform_repeat s d (a : ndarray) n :
  np.shape a = s -> np.dtype a = d -> np.well_formed a ->
  np.uniform s d (List.repeat a n).
Proof.
  intros. unfold np.uniform. apply Forall_forall. intros x Hx.
  apply repeat_spec in Hx. subst x. auto.
Qed.

Lemma uniform_skipn s d (h : list ndarray) k :
  np.uniform s d h -> np.uniform s d (skipn k h).
Proof.
  unfold np.uniform. intros H. rewrite Forall_forall in *. intros x Hx.
  apply H. rewrite <- (firstn_skipn k h). apply in_or_app. right. exact Hx.
Qed.

Lemma stack_uniform s d (a : ndarray) h :
  np.uniform s d (a :: h) ->
  np.stack (a :: h)
  = Ok (np.mk_ndarray (length (a :: h) :: s) d (concat (map np.data (a :: h)))).
Proof.
  intros H. inversion H as [|x l [Hs [Hd _]] Hl]; subst x l.
  unfold np.stack.
  replace (forallb (fun b => np.shape_eqb (np.shape b) (np.shape a)) h) with true.
  - rewrite fold_promote_same.
    + rewrite Hs, Hd. reflexivity.
    + apply Forall_map. eapply Forall_impl; [|exact Hl].
      simpl. intros b [_ [Hb _]]. congruence.
  - symmetry. apply forallb_forall. intros b Hb.
    unfold np.uniform in Hl. rewrite Forall_forall in Hl.
    destruct (Hl b Hb) as [Hsb _]. rewrite Hsb, Hs. apply shape_eqb_refl.
Qed.

Lemma getitem0_frames s d (h : list ndarray) (i : nat) (dflt : ndarray) :
  np.uniform s d h -> i < length h ->
  np.getitem0 (np.mk_ndarray (length h :: s) d (concat (map np.data h))) i
  = Ok (nth i h dflt).
Proof.
  intros H Hi. unfold np.getitem0. simpl.
  destruct (Nat.ltb_spec i (length h)) as [_|]; [|lia].
  rewrite chunk_concat.
  - unfold np.uniform in H. rewrite Forall_forall in H.
    destruct (H (nth i h dflt) (nth_In h dflt Hi)) as [Hs [Hd _]].
    change (@nil E) with (np.data (np.mk_ndarray (@nil nat) np.bool_ (@nil E))).
    rewrite map_nth. rewrite (nth_indep h _ dflt Hi).
    destruct (nth i h dflt) as [s' d' x]. simpl in *. subst. reflexivity.
  - apply Forall_map. eapply Forall_impl; [|exact H].
    simpl. intros a [Hs [_ Hw]]. unfold np.well_formed in Hw. congruence.
  - rewrite length_map. exact Hi.
Qed.

End ArrayFacts.

(** ** space_utils.stack_last *)

Section StackLast.

Variable E : Type.

Notation ndarray := (np.ndarray E).

Lemma stack_last_ref_length (h : list ndarray) (n : nat) :
  h <> [] -> length (space_utils.stack_last_ref h n) = n.
Proof.
  intros Hh. destruct h as [|h0 t]; [congruence|].
  unfold space_utils.stack_last_ref.
  rewrite length_app, repeat_length, length_skipn. lia.
Qed.

Lemma stack_last_ref_uniform s d (h : list ndarray) (n : nat) :
  np.uniform s d h -> np.uniform s d (space_utils.stack_last_ref h n).
Proof.
  intros H. destruct h as [|h0 t]; [exact H|].
  unfold space_utils.stack_last_ref. apply uniform_app.
  - inversion H as [|x l [Hs [Hd Hw]] _]; subst.
    apply uniform_repeat; auto.
  - apply uniform_skipn. exact H.
Qed.

Lemma pad_as_nat (n m : nat) :
  Z.to_nat (Z.max 0 (Z.of_nat n - Z.of_nat m)) = n - m.
Proof. lia. Qed.

Lemma firstn_exact (A : Type) (l1 l2 : list A) (k : nat) :
  length l1 = k -> firstn k (l1 ++ l2) = l1.
Proof.
  intros H. rewrite firstn_app, H, Nat.sub_diag. simpl.
  rewrite <- H, firstn_all. apply app_nil_r.
Qed.

(** The array built by the code is the stack of the reference frames. *)
Lemma stack_last_is_stack_of_ref s d (h : list ndarray) (n : nat) :
  1 <= n -> h <> [] -> np.uniform s d h ->
  space_utils.stack_last (py.List_ h) n
  = np.stack (space_utils.stack_last_ref h n).
Proof.
  intros Hn Hh Hu. destruct h as [|h0 t]; [congruence|].
  assert (Hlast : py.getitem_last_n (py.List_ (h0 :: t)) n
                  = Ok (py.List_ (skipn (length (h0 :: t) - n) (h0 :: t)))).
  { destruct n; [lia|reflexivity]. }
  unfold space_utils.stack_last, py.len, space_utils.stack_last_ref.
  rewrite Hlast, pad_as_nat. cbn [py.to_list bind].
  set (len := length (h0 :: t)) in *.
  destruct (Nat.le_gt_cases n len) as [Hle|Hgt].
  - replace (n - len) with 0 by lia. cbn [List.repeat app].
    destruct (np.stack (skipn (len - n) (h0 :: t))); reflexivity.
  - replace (len - n) with 0 by lia. cbn [skipn].
    rewrite (stack_uniform Hu). cbn [bind].
    destruct (n - len) as [|p] eqn:Hp; [lia|].
    inversion Hu as [|x l [Hs [Hd Hw]] Hl]; subst x l.
    unfold np.slice0_to. cbn [np.shape bind].
    unfold np.repeat. cbn [np.shape bind].
    unfold np.concatenate. cbn [np.shape]. rewrite shape_eqb_refl.
    change (List.repeat h0 (S p) ++ h0 :: t)
      with (h0 :: (List.repeat h0 p ++ h0 :: t)).
    assert (Hu' : np.uniform s d (h0 :: (List.repeat h0 p ++ h0 :: t))).
    { constructor; [auto|]. apply uniform_app; [|exact Hu].
      apply uniform_repeat; auto. }
    rewrite (stack_uniform Hu'). f_equal.
    unfold np.well_formed in Hw. rewrite Hs in Hw.
    cbn [np.dtype np.data]. rewrite promote_types_idem.
    f_equal.
    + f_equal. cbn [length]. rewrite length_app, repeat_length. cbn [length]. lia.
    + unfold np.chunk. cbn [length Nat.min seq flat_map map concat Nat.mul skipn].
      rewrite Nat.add_0_r, (@firstn_exact _ _ _ _ Hw).
      rewrite (firstn_all2 (n := np.prod_shape s)) by lia.
      rewrite app_nil_r, map_app, concat_app, map_repeat.
      cbn [List.repeat concat map]. rewrite <- app_assoc. reflexivity.
Qed.

(** An empty history cannot be stacked. *)
Theorem stack_last_empty (n : nat) :
  space_utils.stack_last (py.List_ (@nil ndarray)) n = Raise ValueError.
Proof. destruct n; reflexivity. Qed.

End StackLast.

Section StackLastClaim.

Variable E : Type.

Notation ndarray := (np.ndarray E).

(** C4. For a history [h] of frames of one shape [s] and dtype [d] and
    every [n >= 1], [stack_last] returns an array of shape [(n,) + s] and
    dtype [d], the stack of the reference frames: each frame along the
    leading axis has the shape and dtype of the frames of [h]; when
    [len(h) >= n] the frames are the last [n] elements of [h], oldest
    first; when [len(h) < n] the first [n - len(h)] frames are [h[0]] and
    the remaining ones are [h] in order.  ([h[0]] exists: [h] is not
    empty.) *)
Theorem stack_last_reference (s : list nat) (d : np.DType) (h : list ndarray)
    (n : nat) (dflt : ndarray) :
  1 <= n -> h <> [] -> np.uniform s d h ->
  exists r,
    space_utils.stack_last (py.List_ h) n = Ok r
    /\ np.stack (space_utils.stack_last_ref h n) = Ok r
    /\ np.shape r = n :: s /\ np.dtype r = d
    /\ (forall i, i < n ->
        exists f, np.getitem0 r i = Ok f /\ np.shape f = s /\ np.dtype f = d)
    /\ (n <= length h ->
        forall i, i < n -> np.getitem0 r i = Ok (nth (length h - n + i) h dflt))
    /\ (length h < n ->
        (forall i, i < n - length h -> np.getitem0 r i = Ok (hd dflt h))
        /\ (forall j, j < length h ->
            np.getitem0 r (n - length h + j) = Ok (nth j h dflt))).
Proof.
  intros Hn Hh Hu.
  pose proof (stack_last_ref_length n Hh) as Hlen.
  pose proof (stack_last_ref_uniform n Hu) as Huni.
  rewrite (stack_last_is_stack_of_ref Hn Hh Hu).
  assert (Hget : forall i, i < n ->
            np.getitem0
              (np.mk_ndarray (n :: s) d
                 (concat (map np.data (space_utils.stack_last_ref h n)))) i
            = Ok (nth i (space_utils.stack_last_ref h n) dflt)).
  { intros i Hi. rewrite <- Hlen at 1.
    apply getitem0_frames; [exact Huni|lia]. }
  destruct (space_utils.stack_last_ref h n) as [|a l] eqn:Href.
  { simpl in Hlen. lia. }
  rewrite (stack_uniform Huni), Hlen.
  eexists. split; [reflexivity|]. split; [reflexivity|].
  split; [reflexivity|]. split; [reflexivity|].
  assert (Href' : a :: l = space_utils.stack_last_ref h n) by congruence.
  clear Href. rewrite Href' in *. clear Href' a l.
  destruct h as [|h0 t]; [congruence|].
  unfold space_utils.stack_last_ref in *.
  split; [|split].
  - intros i Hi. rewrite (Hget i Hi). eexists. split; [reflexivity|].
    unfold np.uniform in Huni.
    rewrite Forall_forall in Huni.
    assert (Hin : In (nth i (List.repeat h0 (n - length (h0 :: t))
                              ++ skipn (length (h0 :: t) - n) (h0 :: t)) dflt)
                     (List.repeat h0 (n - length (h0 :: t))
                      ++ skipn (length (h0 :: t) - n) (h0 :: t))).
    { apply nth_In. lia. }
    destruct (Huni _ Hin) as [H1 [H2 _]]. auto.
  - intros Hle i Hi. rewrite (Hget i Hi).
    replace (n - length (h0 :: t)) with 0 by lia. cbn [List.repeat app].
    rewrite nth_skipn. reflexivity.
  - intros Hlt.
    assert (Hz : length (h0 :: t) - n = 0) by lia.
    rewrite Hz in *. cbn [skipn] in *. split.
    + intros i Hi. rewrite (Hget i) by lia.
      rewrite app_nth1 by (rewrite repeat_length; exact Hi).
      rewrite (nth_repeat_lt h0 dflt Hi). reflexivity.
    + intros j Hj. rewrite Hget by lia.
      rewrite app_nth2 by (rewrite repeat_length; lia).
      rewrite repeat_length. f_equal. f_equal. lia.
Qed.

End StackLastClaim.

(** The history [A, B] stacked four deep is [A, A, A, B]. *)
Lemma stack_last_reference_witness :
  exists r,
    space_utils.stack_last (py.List_ [demo.frame 10; demo.frame 20]) 4 = Ok r
    /\ np.shape r = [4; 2]
    /\ np.getitem0 r 0 = Ok (demo.frame 10)
    /\ np.getitem0 r 1 = Ok (demo.frame 10)
    /\ np.getitem0 r 2 = Ok (demo.frame 10)
    /\ np.getitem0 r 3 = Ok (demo.frame 20).
Proof.
  destruct (@stack_last_reference Z [2] np.uint8
              [demo.frame 10; demo.frame 20] 4 (demo.frame 0))
    as (r & Hr & _ & Hs & _ & _ & _ & Hpad).
  - lia.
  - discriminate.
  - repeat constructor.
  - destruct Hpad as [Hhead Htail]; [simpl; lia|].
    exists r. split; [exact Hr|]. split; [exact Hs|].
    split; [apply (Hhead 0); simpl; lia|].
    split; [apply (Hhead 1); simpl; lia|].
    split; [apply (Htail 0); simpl; lia|].
    apply (Htail 1). simpl. lia.
Defined.

(** ** space_utils.repeated_box and repeated_space *)

Section RepeatedSpace.

Variable E : Type.

Notation ndarray := (np.ndarray E).

(** [n] copies of an array along a new leading axis. *)
Lemma repeat_expand_dims0 (a : ndarray) (n : nat) :
  np.well_formed a ->
  np.repeat (np.expand_dims0 a) n
  = Ok (np.mk_ndarray (n :: np.shape a) (np.dtype a)
          (concat (List.repeat (np.data a) n))).
Proof.
  intros Hw. unfold np.well_formed in Hw.
  unfold np.repeat, np.expand_dims0, np.chunk.
  cbn [np.shape np.dtype np.data seq flat_map Nat.mul skipn].
  rewrite Nat.add_0_r, app_nil_r, <- Hw, firstn_all. reflexivity.
Qed.

Lemma getitem0_copies (a : ndarray) (n i : nat) :
  np.well_formed a -> i < n ->
  np.getitem0
    (np.mk_ndarray (n :: np.shape a) (np.dtype a)
       (concat (List.repeat (np.data a) n))) i
  = Ok a.
Proof.
  intros Hw Hi. unfold np.getitem0. cbn [np.shape np.dtype np.data].
  destruct (Nat.ltb_spec i n) as [_|]; [|lia].
  rewrite chunk_concat.
  - rewrite (nth_repeat_lt (np.data a) [] Hi). destruct a; reflexivity.
  - apply Forall_forall. intros x Hx. apply repeat_spec in Hx. subst x.
    exact Hw.
  - rewrite repeat_length. exact Hi.
Qed.

(** With well-formed bounds, [repeated_box] hands to [spaces.Box] the
    [n] copies of each bound and the dtype uint8. *)
Lemma repeated_box_calls_spaces_Box
    (spaces_Box : ndarray -> ndarray -> np.DType -> Exc (space_utils.Box E))
    (b : space_utils.Box E) (n : nat) :
  np.well_formed (space_utils.low b) -> np.well_formed (space_utils.high b) ->
  space_utils.repeated_box spaces_Box b n
  = spaces_Box
      (np.mk_ndarray (n :: np.shape (space_utils.low b))
         (np.dtype (space_utils.low b))
         (concat (List.repeat (np.data (space_utils.low b)) n)))
      (np.mk_ndarray (n :: np.shape (space_utils.high b))
         (np.dtype (space_utils.high b))
         (concat (List.repeat (np.data (space_utils.high b)) n)))
      np.uint8.
Proof.
  intros Hl Hh. unfold space_utils.repeated_box.
  rewrite (repeat_expand_dims0 n Hl), (repeat_expand_dims0 n Hh).
  reflexivity.
Qed.

Lemma Forall_concat_repeat (A : Type) (P : A -> Prop) (l : list A) (n : nat) :
  Forall P l -> Forall P (concat (List.repeat l n)).
Proof.
  intros H. induction n as [|n IH]; cbn [List.repeat concat];
    [constructor|]. apply Forall_app. split; assumption.
Qed.

Lemma Exists_concat_repeat (A : Type) (P : A -> Prop) (l : list A) (n : nat) :
  1 <= n -> Exists P l -> Exists P (concat (List.repeat l n)).
Proof.
  intros Hn H. destruct n as [|n]; [lia|]. cbn [List.repeat concat].
  apply Exists_app. left. exact H.
Qed.

Lemma Forall2_concat_repeat (A B : Type) (R : A -> B -> Prop)
    (l : list A) (l' : list B) (n : nat) :
  Forall2 R l l' ->
  Forall2 R (concat (List.repeat l n)) (concat (List.repeat l' n)).
Proof.
  intros H. induction n as [|n IH]; cbn [List.repeat concat];
    [constructor|]. apply Forall2_app; assumption.
Qed.

End RepeatedSpace.

(** ** gymnasium.spaces_Box at the dtype uint8 *)

Section SpacesBox.

Variable c_cast : np.DType -> np.DType -> Z -> Z.

Notation spaces_Box := (gymnasium.spaces_Box c_cast).

Lemma dtype_eqb_eq (a b : np.DType) : np.dtype_eqb a b = true <-> a = b.
Proof. destruct a, b; cbn; split; intros H; congruence. Qed.

(** Every exception of the constructor is a [ValueError]. *)
Lemma spaces_Box_raises (low high : np.ndarray Z) (d : np.DType) (e : PyError) :
  spaces_Box low high d = Raise e -> e = ValueError.
Proof.
  unfold gymnasium.spaces_Box.
  repeat match goal with
         | |- context [if ?c then _ else _] => destruct c
         end; intros H; inversion H; reflexivity.
Qed.

Lemma spaces_Box_low_out_of_range (low high : np.ndarray Z) (d : np.DType) :
  np.dtype low <> d ->
  Exists (fun v => (v < gymnasium.dtype_min d)%Z) (np.data low) ->
  spaces_Box low high d = Raise ValueError.
Proof.
  intros Hd Hex. unfold gymnasium.spaces_Box.
  destruct (negb (np.shape_eqb (np.shape low) (np.shape high)));
    [reflexivity|].
  destruct (np.dtype_eqb (np.dtype low) d) eqn:Heq;
    [apply dtype_eqb_eq in Heq; contradiction|].
  cbn [negb andb].
  replace (existsb (fun v => (v <? gymnasium.dtype_min d)%Z) (np.data low))
    with true; [reflexivity|].
  symmetry. apply existsb_exists. apply Exists_exists in Hex.
  destruct Hex as (v & Hin & Hv). exists v. split; [exact Hin|].
  apply Z.ltb_lt. exact Hv.
Qed.

Lemma spaces_Box_high_out_of_range (low high : np.ndarray Z) (d : np.DType) :
  np.dtype high <> d ->
  Exists (fun v => (gymnasium.dtype_max d < v)%Z) (np.data high) ->
  spaces_Box low high d = Raise ValueError.
Proof.
  intros Hd Hex. unfold gymnasium.spaces_Box.
  destruct (negb (np.shape_eqb (np.shape low) (np.shape high)));
    [reflexivity|].
  destruct (negb (np.dtype_eqb (np.dtype low) d)
            && existsb (fun v => (v <? gymnasium.dtype_min d)%Z) (np.data low));
    [reflexivity|].
  destruct (np.dtype_eqb (np.dtype high) d) eqn:Heq;
    [apply dtype_eqb_eq in Heq; contradiction|].
  cbn [negb andb].
  replace (existsb (fun v => (gymnasium.dtype_max d <? v)%Z) (np.data high))
    with true; [reflexivity|].
  symmetry. apply existsb_exists. apply Exists_exists in Hex.
  destruct Hex as (v & Hin & Hv). exists v. split; [exact Hin|].
  apply Z.ltb_lt. exact Hv.
Qed.

Notation in_uint8 := (gymnasium.in_range np.uint8).

Lemma astype_uint8_in_range (a : np.ndarray Z) :
  Forall in_uint8 (np.data a) ->
  gymnasium.astype c_cast a np.uint8
  = np.mk_ndarray (np.shape a) np.uint8 (np.data a).
Proof.
  intros Hr. unfold gymnasium.astype.
  destruct (np.dtype_eqb (np.dtype a) np.uint8) eqn:Heq.
  - apply dtype_eqb_eq in Heq. destruct a as [s d l]. cbn in *. subst d.
    reflexivity.
  - f_equal. induction Hr as [|v l Hv _ IH]; cbn [map]; [reflexivity|].
    rewrite IH. unfold gymnasium.keeps_value, gymnasium.in_range in *.
    cbn [gymnasium.dtype_min gymnasium.dtype_max] in *.
    destruct (Z.leb_spec 0 v); [|lia].
    destruct (Z.leb_spec v 255); [|lia]. reflexivity.
Qed.

Lemma existsb_false_Forall (A : Type) (f : A -> bool) (l : list A) :
  Forall (fun x => f x = false) l -> existsb f l = false.
Proof.
  induction 1 as [|x l Hx _ IH]; cbn [existsb]; [reflexivity|].
  rewrite Hx, IH. reflexivity.
Qed.

(** Bounds between 0 and 255, each lower bound at most its upper bound:
    the constructor returns the box of these bounds as uint8 arrays. *)
Lemma spaces_Box_uint8_in_range (low high : np.ndarray Z) :
  np.shape low = np.shape high ->
  Forall in_uint8 (np.data low) -> Forall in_uint8 (np.data high) ->
  Forall2 Z.le (np.data low) (np.data high) ->
  spaces_Box low high np.uint8
  = Ok (space_utils.mk_Box
          (np.mk_ndarray (np.shape low) np.uint8 (np.data low))
          (np.mk_ndarray (np.shape high) np.uint8 (np.data high))
          np.uint8).
Proof.
  intros Hs Hl Hh Hle. unfold gymnasium.spaces_Box.
  replace (np.shape_eqb (np.shape low) (np.shape high)) with true
    by (rewrite Hs; symmetry; apply shape_eqb_refl).
  cbn [negb].
  rewrite (@existsb_false_Forall _ (fun v => (v <? gymnasium.dtype_min np.uint8)%Z)
             (np.data low)).
  2:{ eapply Forall_impl; [|exact Hl]. intros v Hv.
      unfold gymnasium.in_range in Hv.
      cbn [gymnasium.dtype_min gymnasium.dtype_max] in *. apply Z.ltb_ge. lia. }
  rewrite andb_false_r.
  rewrite (@existsb_false_Forall _ (fun v => (gymnasium.dtype_max np.uint8 <? v)%Z)
             (np.data high)).
  2:{ eapply Forall_impl; [|exact Hh]. intros v Hv.
      unfold gymnasium.in_range in Hv.
      cbn [gymnasium.dtype_min gymnasium.dtype_max] in *. apply Z.ltb_ge. lia. }
  rewrite andb_false_r.
  rewrite (@astype_uint8_in_range low Hl), (@astype_uint8_in_range high Hh).
  cbv zeta. unfold gymnasium.any_gt. cbn [np.data].
  rewrite existsb_false_Forall; [reflexivity|].
  clear Hs Hl Hh. induction Hle as [|x y l l' Hxy _ IH]; cbn [combine];
    constructor; [|exact IH]. cbn [fst snd]. apply Z.ltb_ge. exact Hxy.
Qed.

(** What the constructor returns has the dtype and the shape asked for. *)
Lemma spaces_Box_returns (low high : np.ndarray Z) (d : np.DType)
    (b : space_utils.Box Z) :
  spaces_Box low high d = Ok b ->
  space_utils.box_dtype b = d
  /\ space_utils.box_shape b = np.shape low
  /\ np.shape (space_utils.high b) = np.shape low
  /\ np.dtype (space_utils.low b) = d
  /\ np.dtype (space_utils.high b) = d.
Proof.
  unfold gymnasium.spaces_Box.
  destruct (np.shape_eqb (np.shape low) (np.shape high)) eqn:Hs;
    cbn [negb]; [|discriminate].
  unfold np.shape_eqb in Hs.
  destruct (list_eq_dec Nat.eq_dec (np.shape low) (np.shape high)) as [Hs'|];
    [|discriminate].
  destruct (negb (np.dtype_eqb (np.dtype low) d) && existsb _ (np.data low));
    [discriminate|].
  destruct (negb (np.dtype_eqb (np.dtype high) d) && existsb _ (np.data high));
    [discriminate|].
  cbv zeta.
  destruct (gymnasium.any_gt _ _); [discriminate|].
  intros H. inversion H. clear H.
  unfold space_utils.box_shape, gymnasium.astype.
  cbn [space_utils.box_dtype space_utils.low space_utils.high].
  destruct (np.dtype_eqb (np.dtype low) d) eqn:Hl;
    destruct (np.dtype_eqb (np.dtype high) d) eqn:Hh;
    try apply dtype_eqb_eq in Hl; try apply dtype_eqb_eq in Hh;
    cbn [np.shape np.dtype]; rewrite <- ?Hs'; auto.
Qed.

(** C6. [repeated_box] asks gymnasium for a box of dtype uint8 whatever
    the dtype of the input.  For bounds that are uint8 values, each lower
    bound at most its upper bound, it returns a box of shape
    [(n,) + box.shape] and dtype uint8 whose bounds hold the input bounds
    [n] times along the new leading axis.  For a box of another dtype with
    a lower bound below 0 or an upper bound above 255, such as a box of
    floats between -1 and 1, it returns nothing: the constructor raises
    [ValueError]. *)
Theorem repeated_box_forces_uint8 (b : space_utils.Box Z) (n : nat) :
  np.well_formed (space_utils.low b) -> np.well_formed (space_utils.high b) ->
  1 <= n ->
  (np.dtype (space_utils.low b) <> np.uint8 ->
   Exists (fun v => (v < 0)%Z) (np.data (space_utils.low b)) ->
   space_utils.repeated_box spaces_Box b n = Raise ValueError
   /\ space_utils.repeated_space spaces_Box (space_utils.Box_ b) n
      = Raise ValueError)
  /\ (np.dtype (space_utils.high b) <> np.uint8 ->
      Exists (fun v => (255 < v)%Z) (np.data (space_utils.high b)) ->
      space_utils.repeated_box spaces_Box b n = Raise ValueError
      /\ space_utils.repeated_space spaces_Box (space_utils.Box_ b) n
         = Raise ValueError)
  /\ (np.shape (space_utils.low b) = np.shape (space_utils.high b) ->
      Forall in_uint8 (np.data (space_utils.low b)) ->
      Forall in_uint8 (np.data (space_utils.high b)) ->
      Forall2 Z.le (np.data (space_utils.low b)) (np.data (space_utils.high b)) ->
      exists b',
        space_utils.repeated_box spaces_Box b n = Ok b'
        /\ space_utils.repeated_space spaces_Box (space_utils.Box_ b) n
           = Ok (space_utils.Box_ b')
        /\ space_utils.box_shape b' = n :: space_utils.box_shape b
        /\ np.shape (space_utils.high b') = n :: np.shape (space_utils.high b)
        /\ space_utils.box_dtype b' = np.uint8
        /\ (forall i, i < n ->
            np.getitem0 (space_utils.low b') i
            = Ok (np.mk_ndarray (np.shape (space_utils.low b)) np.uint8
                    (np.data (space_utils.low b)))
            /\ np.getitem0 (space_utils.high b') i
               = Ok (np.mk_ndarray (np.shape (space_utils.high b)) np.uint8
                       (np.data (space_utils.high b))))).
Proof.
  intros Hl Hh Hn. cbn [space_utils.repeated_space].
  rewrite (repeated_box_calls_spaces_Box _ _ n Hl Hh).
  split; [|split].
  - intros Hd Hex. rewrite spaces_Box_low_out_of_range.
    + split; reflexivity.
    + exact Hd.
    + cbn [np.data gymnasium.dtype_min].
      apply Exists_concat_repeat; assumption.
  - intros Hd Hex. rewrite spaces_Box_high_out_of_range.
    + split; reflexivity.
    + exact Hd.
    + cbn [np.data gymnasium.dtype_max].
      apply Exists_concat_repeat; assumption.
  - intros Hs Hrl Hrh Hle. rewrite spaces_Box_uint8_in_range.
    + eexists. split; [reflexivity|]. split; [reflexivity|].
      unfold space_utils.box_shape.
      cbn [space_utils.low space_utils.high space_utils.box_dtype
           np.shape np.data].
      split; [reflexivity|]. split; [reflexivity|]. split; [reflexivity|].
      intros i Hi. split.
      * apply (@getitem0_copies Z
                 (np.mk_ndarray (np.shape (space_utils.low b)) np.uint8
                    (np.data (space_utils.low b))) n i); [exact Hl|exact Hi].
      * apply (@getitem0_copies Z
                 (np.mk_ndarray (np.shape (space_utils.high b)) np.uint8
                    (np.data (space_utils.high b))) n i); [exact Hh|exact Hi].
    + cbn [np.shape]. rewrite Hs. reflexivity.
    + apply Forall_concat_repeat. exact Hrl.
    + apply Forall_concat_repeat. exact Hrh.
    + apply Forall2_concat_repeat. exact Hle.
Qed.

End SpacesBox.

(** A box of floats between -1 and 1, of shape (3,), stacked four times:
    the constructor rejects the lower bound -1. *)
Lemma repeated_box_forces_uint8_witness :
  space_utils.box_shape demo.float_box = [3]
  /\ space_utils.box_dtype demo.float_box = np.float32
  /\ space_utils.repeated_box demo.spaces_Box demo.float_box 4
     = Raise ValueError
  /\ space_utils.repeated_space demo.spaces_Box
       (space_utils.Box_ demo.float_box) 4
     = Raise ValueError.
Proof.
  split; [reflexivity|]. split; [reflexivity|].
  refine (proj1 (@repeated_box_forces_uint8 gymnasium.wrap_cast
                   demo.float_box 4 _ _ _) _ _).
  - reflexivity.
  - reflexivity.
  - lia.
  - cbn. discriminate.
  - cbn. constructor. lia.
Defined.

(** ** buffers.StepBuffers.reduce *)

Section ReduceClaim.

Variable E : Type.
Variable S : reductions.Scalars.

Notation StepBuffers := (@buffers.StepBuffers E S).

Lemma existsb_is_or (l : list bool) :
  existsb (fun d => d) l = fold_right orb false l.
Proof. induction l as [|d l IH]; simpl; [reflexivity|]. rewrite IH. reflexivity. Qed.

(** A mode outside the table is refused. *)
Theorem reduce_unsupported (b : StepBuffers) (mode : string) :
  ~ buffers.supported mode -> buffers.reduce b mode = Raise ValueError.
Proof.
  intros Hm. unfold buffers.reduce, buffers.agg_fn_map. cbn [py.dict_get].
  unfold buffers.supported in Hm. cbn [In] in Hm.
  repeat match goal with
         | |- context [String.eqb ?k mode] =>
             destruct (String.eqb_spec k mode); [exfalso; tauto|]
         end.
  reflexivity.
Qed.

(** [reduce] raises nothing but [ValueError]. *)
Lemma reduce_raises_value_error (b : StepBuffers) (mode : string) (e : PyError) :
  buffers.reduce b mode = Raise e -> e = ValueError.
Proof.
  unfold buffers.reduce, buffers.agg_fn_map. cbn [py.dict_get].
  repeat match goal with
         | |- context [if ?c then _ else _] => destruct c
         end;
    destruct (buffers.rewards b), (buffers.dones b); cbn;
    intros H; try discriminate H; inversion H; reflexivity.
Qed.

Lemma reduce_nonempty (b : StepBuffers) (mode : string)
    (fn : list (reductions.scalar S) -> reductions.scalar S) :
  In (mode, fn)
     [ ("max"%string, reductions.amax S); ("min"%string, reductions.amin S);
       ("mean"%string, reductions.mean S); ("sum"%string, reductions.sum_ S) ] ->
  buffers.rewards b <> [] -> buffers.dones b <> [] ->
  buffers.reduce b mode
  = Ok (fn (buffers.rewards b), fold_right orb false (buffers.dones b)).
Proof.
  intros Hin Hr Hd. unfold buffers.reduce, buffers.agg_fn_map.
  rewrite <- existsb_is_or.
  destruct (buffers.rewards b) as [|r rs] eqn:Er; [congruence|].
  destruct (buffers.dones b) as [|d ds] eqn:Ed; [congruence|].
  cbn [In] in Hin.
  destruct Hin as [H|[H|[H|[H|[]]]]]; inversion H; subst; reflexivity.
Qed.

(** C5. On a buffer whose rewards are not empty and whose flags run
    parallel to them, [reduce] returns, for each of the four modes, the
    pair of that reduction of all the rewards and of the disjunction of
    all the flags; with binary64 rewards, [reduce([1.0, 3.0, 2.0],
    [False, False, True], "max")] is [(3.0, True)] and
    [reduce([1.0, 3.0, 2.0], [False, False, False], "sum")] is
    [(6.0, False)]. *)
Theorem reduce_pair (b : StepBuffers) :
  buffers.rewards b <> [] ->
  length (buffers.dones b) = length (buffers.rewards b) ->
  let any_done := fold_right orb false (buffers.dones b) in
  buffers.reduce b "max" = Ok (reductions.amax S (buffers.rewards b), any_done)
  /\ buffers.reduce b "min" = Ok (reductions.amin S (buffers.rewards b), any_done)
  /\ buffers.reduce b "mean" = Ok (reductions.mean S (buffers.rewards b), any_done)
  /\ buffers.reduce b "sum" = Ok (reductions.sum_ S (buffers.rewards b), any_done)
  /\ (forall n o i,
        buffers.reduce
          (@buffers.mk_StepBuffers E reductions.binary64 n o
             [1.0; 3.0; 2.0]%float [false; false; true] i) "max"
        = Ok (3.0%float, true))
  /\ (forall n o i,
        buffers.reduce
          (@buffers.mk_StepBuffers E reductions.binary64 n o
             [1.0; 3.0; 2.0]%float [false; false; false] i) "sum"
        = Ok (6.0%float, false)).
Proof.
  intros Hr Hlen any_done.
  assert (Hd : buffers.dones b <> []).
  { intros Hd. rewrite Hd in Hlen. destruct (buffers.rewards b); simpl in Hlen;
      [congruence|discriminate]. }
  repeat split; try (apply reduce_nonempty; [cbn [In]; tauto|exact Hr|exact Hd]);
    intros; reflexivity.
Qed.

End ReduceClaim.

Lemma reduce_unsupported_witness :
  buffers.reduce
    (@buffers.mk_StepBuffers Z reductions.binary64 4
       (py.deque_new _ 5) [1.0]%float [false] []) "median"
  = Raise ValueError.
Proof.
  apply (@reduce_unsupported Z reductions.binary64).
  unfold buffers.supported. cbn [In].
  intros [H|[H|[H|[H|[]]]]]; discriminate H.
Defined.

Lemma reduce_pair_witness :
  buffers.reduce
    (@buffers.mk_StepBuffers Z reductions.binary64 4
       (py.deque_new _ 5) [1.0; 3.0; 2.0]%float [false; false; true] []) "min"
  = Ok (1.0%float, true).
Proof.
  refine (proj1 (proj2 (@reduce_pair Z reductions.binary64
            (@buffers.mk_StepBuffers Z reductions.binary64 4
               (py.deque_new _ 5) [1.0; 3.0; 2.0]%float [false; false; true] [])
            _ _))).
  - discriminate.
  - reflexivity.
Defined.

(** ** wrapper.MultiStep *)

Section WrapperFacts.

Variable E : Type.
Variable S : reductions.Scalars.
Variables EnvState Act Kw : Type.
Variable gym_env : wrapper.Env E S EnvState Act Kw.
Variable spaces_Box : np.ndarray E -> np.ndarray E -> np.DType
                      -> Exc (space_utils.Box E).

Notation ndarray := (np.ndarray E).
Notation R := (reductions.scalar S).
Notation MultiStep := (wrapper.MultiStep E S EnvState Act Kw).
Notation StepBuffers := (@buffers.StepBuffers E S).
Notation Call := (wrapper.Call E S Act Kw).
Notation call_step := (wrapper.call_step gym_env).
Notation call_reset := (wrapper.call_reset gym_env).
Notation inner_step := (wrapper.inner_step gym_env).
Notation inner_loop := (wrapper.inner_loop gym_env).
Notation step := (wrapper.step gym_env).
Notation reset := (wrapper.reset gym_env).
Notation reachable := (wrapper.reachable gym_env spaces_Box).

(** The flag an inner step on [a] records. *)
Notation done_of w a :=
  (wrapper.out_terminated (snd (call_step (wrapper.env w) a))
   || wrapper.out_truncated (snd (call_step (wrapper.env w) a))).

(** *** Unfolding the calls *)

Lemma call_step_calls (e : wrapper.EnvObj E S EnvState Act Kw) (a : Act) :
  wrapper.env_calls (fst (call_step e a))
  = wrapper.env_calls e ++ [wrapper.CallStep Kw a (snd (call_step e a))].
Proof.
  unfold wrapper.call_step.
  destruct (wrapper.env_step gym_env (wrapper.env_state e) a). reflexivity.
Qed.

Lemma call_step_out (e : wrapper.EnvObj E S EnvState Act Kw) (a : Act) :
  snd (call_step e a) = snd (wrapper.env_step gym_env (wrapper.env_state e) a).
Proof.
  unfold wrapper.call_step.
  destruct (wrapper.env_step gym_env (wrapper.env_state e) a). reflexivity.
Qed.

Lemma inner_step_eq (w : MultiStep) (a : Act) :
  inner_step w a
  = wrapper.set_buf w (fst (call_step (wrapper.env w) a))
      (buffers.add_info
         (buffers.add_done
            (buffers.add_reward
               (buffers.add_obs (wrapper.buf w)
                  (wrapper.out_obs (snd (call_step (wrapper.env w) a))))
               (wrapper.out_rew (snd (call_step (wrapper.env w) a))))
            (done_of w a))
         (wrapper.out_info (snd (call_step (wrapper.env w) a)))).
Proof.
  unfold wrapper.inner_step. destruct (call_step (wrapper.env w) a). reflexivity.
Qed.

Lemma reset_eq (w : MultiStep) (kw : Kw) :
  reset w kw
  = (wrapper.set_buf w (fst (call_reset (wrapper.env w) kw))
       (buffers.add_obs (buffers.StepBuffers_new E S (wrapper.n_obs w))
          (snd (call_reset (wrapper.env w) kw))),
     Raise TypeError).
Proof.
  unfold wrapper.reset. destruct (call_reset (wrapper.env w) kw). reflexivity.
Qed.


(** Slicing the deque of observations raises before anything is stacked. *)
Lemma stack_obs_raises (w : MultiStep) : wrapper._stack_obs w = Raise TypeError.
Proof. reflexivity. Qed.

Lemma step_eq (w : MultiStep) (action : list Act) :
  length action = wrapper.n_action w ->
  step w action
  = (inner_loop w action,
     match wrapper.aggregate (inner_loop w action) with
     | Ok _ => Raise TypeError
     | Raise e => Raise e
     end).
Proof.
  intros Hlen. unfold wrapper.step. rewrite Hlen, Nat.eqb_refl. cbn [negb].
  destruct (wrapper.aggregate (inner_loop w action)); reflexivity.
Qed.

(** Every call of [step] raises, and the exception is fixed by the case:
    [AssertionError] on a wrong number of actions, with the wrapper left
    as it was; after the inner loop, the [ValueError] of [reduce] when the
    reduction fails; and [TypeError] otherwise, raised while building the
    stacked observation.  No call returns a result. *)
Theorem step_never_returns (w : MultiStep) (action : list Act) :
  step w action
  = if negb (length action =? wrapper.n_action w)
    then (w, Raise AssertionError)
    else (inner_loop w action,
          Raise (if is_ok (buffers.reduce
                             (wrapper.buf (inner_loop w action))
                             (wrapper.reward_reduce (inner_loop w action)))
                 then TypeError
                 else ValueError)).
Proof.
  unfold wrapper.step.
  destruct (negb (length action =? wrapper.n_action w)); [reflexivity|].
  f_equal. unfold wrapper.aggregate.
  destruct (buffers.reduce (wrapper.buf (inner_loop w action))
              (wrapper.reward_reduce (inner_loop w action)))
    as [rd|e] eqn:Hr; cbn [bind is_ok].
  - rewrite stack_obs_raises. reflexivity.
  - rewrite (@reduce_raises_value_error E S _ _ e Hr). reflexivity.
Qed.

(** *** The configuration is fixed at construction *)

Lemma same_config_refl (w : MultiStep) : wrapper.same_config w w.
Proof. repeat split. Qed.

Lemma same_config_trans (w1 w2 w3 : MultiStep) :
  wrapper.same_config w1 w2 -> wrapper.same_config w2 w3 ->
  wrapper.same_config w1 w3.
Proof. unfold wrapper.same_config. intuition congruence. Qed.

Lemma inner_step_config (w : MultiStep) (a : Act) :
  wrapper.same_config w (inner_step w a).
Proof. rewrite inner_step_eq. repeat split. Qed.

Lemma inner_loop_config (action : list Act) :
  forall w : MultiStep, wrapper.same_config w (inner_loop w action).
Proof.
  induction action as [|a rest IH]; intros w; cbn [wrapper.inner_loop].
  - apply same_config_refl.
  - destruct (py.nonempty_and_last _); [apply same_config_refl|].
    eapply same_config_trans; [apply inner_step_config|apply IH].
Qed.

Lemma apply_op_config (w : MultiStep) (op : wrapper.Op Act Kw) :
  wrapper.same_config w (wrapper.apply_op gym_env w op).
Proof.
  destruct op as [kw|action]; cbn [wrapper.apply_op].
  - rewrite reset_eq. repeat split.
  - unfold wrapper.step.
    destruct (negb (length action =? wrapper.n_action w)); cbn [fst].
    + apply same_config_refl.
    + apply inner_loop_config.
Qed.

(** *** The bounds of the buffer *)

Lemma window_ok_new (n : nat) :
  wrapper.window_ok n (py.deque_new ndarray (n + 1)).
Proof. split; simpl; lia. Qed.

Lemma window_ok_append (n : nat) (d : py.deque ndarray) (x : ndarray) :
  wrapper.window_ok n d -> wrapper.window_ok n (py.deque_append d x).
Proof.
  intros [Hm Hl]. unfold wrapper.window_ok, py.deque_append.
  cbn [py.maxlen py.items]. split; [exact Hm|].
  rewrite length_skipn. lia.
Qed.

Lemma setdefault_update_windows (n : nat) (x : ndarray) (k : string)
    (d : list (string * py.deque ndarray)) :
  Forall (fun kv => wrapper.window_ok n (snd kv)) d ->
  Forall (fun kv => wrapper.window_ok n (snd kv))
    (py.dict_setdefault_update d k (py.deque_new ndarray (n + 1))
       (fun w => py.deque_append w x)).
Proof.
  induction 1 as [|[k' v] rest Hv Hrest IH]; cbn [py.dict_setdefault_update].
  - constructor; [|constructor]. apply window_ok_append, window_ok_new.
  - destruct (String.eqb k' k).
    + constructor; [|assumption]. apply window_ok_append. exact Hv.
    + constructor; assumption.
Qed.

Lemma add_info_windows (n : nat) (info : list (string * ndarray)) :
  forall d : list (string * py.deque ndarray),
    Forall (fun kv => wrapper.window_ok n (snd kv)) d ->
    Forall (fun kv => wrapper.window_ok n (snd kv))
      (fold_left
         (fun d kv =>
            py.dict_setdefault_update d (fst kv) (py.deque_new ndarray (n + 1))
              (fun w => py.deque_append w (snd kv)))
         info d).
Proof.
  induction info as [|[k x] info IH]; intros d Hd; cbn [fold_left].
  - exact Hd.
  - apply IH. apply setdefault_update_windows. exact Hd.
Qed.

Lemma inner_step_buffers_ok (w : MultiStep) (a : Act) :
  wrapper.buffers_ok w -> wrapper.buffers_ok (inner_step w a).
Proof.
  intros (Hn & Ho & Hi & Hr). rewrite inner_step_eq.
  unfold wrapper.buffers_ok, wrapper.set_buf.
  cbn [wrapper.buf wrapper.n_obs buffers.add_info buffers.add_done
       buffers.add_reward buffers.add_obs buffers.n_obs buffers.obs
       buffers.infos buffers.rewards buffers.dones].
  split; [exact Hn|]. split; [apply window_ok_append; exact Ho|].
  split.
  - rewrite Hn. apply add_info_windows. exact Hi.
  - rewrite !length_app, Hr. reflexivity.
Qed.

Lemma inner_loop_buffers_ok (action : list Act) :
  forall w : MultiStep,
    wrapper.buffers_ok w -> wrapper.buffers_ok (inner_loop w action).
Proof.
  induction action as [|a rest IH]; intros w Hw; cbn [wrapper.inner_loop].
  - exact Hw.
  - destruct (py.nonempty_and_last _); [exact Hw|].
    apply IH, inner_step_buffers_ok, Hw.
Qed.

Lemma init_buffers_ok e n_obs n_action mode ceiling (w : MultiStep) :
  wrapper.__init__ gym_env spaces_Box e n_obs n_action mode ceiling = Ok w ->
  wrapper.buffers_ok w.
Proof.
  unfold wrapper.__init__. intros H.
  destruct (space_utils.repeated_space _ _ n_obs); [|discriminate].
  destruct (space_utils.repeated_space _ _ n_action); [|discriminate].
  inversion H; subst w. unfold wrapper.buffers_ok. cbn.
  split; [reflexivity|]. split; [apply window_ok_new|].
  split; [constructor|reflexivity].
Qed.

Lemma apply_op_buffers_ok (w : MultiStep) (op : wrapper.Op Act Kw) :
  wrapper.buffers_ok w -> wrapper.buffers_ok (wrapper.apply_op gym_env w op).
Proof.
  intros Hw. destruct op as [kw|action]; cbn [wrapper.apply_op].
  - rewrite reset_eq. unfold wrapper.buffers_ok. cbn.
    split; [reflexivity|]. split; [apply window_ok_append, window_ok_new|].
    split; [constructor|reflexivity].
  - unfold wrapper.step.
    destruct (negb (length action =? wrapper.n_action w)); cbn [fst].
    + exact Hw.
    + apply inner_loop_buffers_ok, Hw.
Qed.

Lemma reachable_buffers_ok (w : MultiStep) : reachable w -> wrapper.buffers_ok w.
Proof.
  induction 1 as [e n_obs n_action mode ceiling w Hinit | w op _ IH].
  - eapply init_buffers_ok, Hinit.
  - apply apply_op_buffers_ok, IH.
Qed.

(** C9. After every sequence of [reset] and [step] calls on a constructed
    wrapper, the window of observations holds at most [n_obs + 1] frames,
    the window of every info field holds at most [n_obs + 1] values, and
    there are as many rewards as termination flags. *)
Theorem buffer_bounds (w : MultiStep) :
  reachable w ->
  length (py.items (buffers.obs (wrapper.buf w))) <= wrapper.n_obs w + 1
  /\ Forall (fun kv => length (py.items (snd kv)) <= wrapper.n_obs w + 1)
       (buffers.infos (wrapper.buf w))
  /\ length (buffers.rewards (wrapper.buf w))
     = length (buffers.dones (wrapper.buf w)).
Proof.
  intros Hw. destruct (reachable_buffers_ok Hw) as (_ & [_ Ho] & Hi & Hr).
  split; [exact Ho|]. split; [|exact Hr].
  eapply Forall_impl; [|exact Hi]. intros kv [_ H]. exact H.
Qed.

(** C8. A call of [step] with a number of actions other than [n_action]
    fails on the assertion: the wrapped environment is not called and the
    wrapper, its buffer included, is as it was. *)
Theorem step_wrong_action_count (w : MultiStep) (action : list Act) :
  length action <> wrapper.n_action w ->
  snd (step w action) = Raise AssertionError
  /\ fst (step w action) = w
  /\ wrapper.env_calls (wrapper.env (fst (step w action)))
     = wrapper.env_calls (wrapper.env w)
  /\ wrapper.buf (fst (step w action)) = wrapper.buf w.
Proof.
  intros Hlen. unfold wrapper.step.
  destruct (Nat.eqb_spec (length action) (wrapper.n_action w)) as [|_];
    [contradiction|].
  cbn [negb fst snd]. repeat split.
Qed.

(** *** The exposed spaces *)

Lemma init_spaces e n_obs n_action mode ceiling (w : MultiStep) :
  wrapper.__init__ gym_env spaces_Box e n_obs n_action mode ceiling = Ok w ->
  space_utils.repeated_space spaces_Box (wrapper.env_observation_space gym_env) n_obs
  = Ok (wrapper._obs_space w)
  /\ space_utils.repeated_space spaces_Box (wrapper.env_action_space gym_env) n_action
     = Ok (wrapper._act_space w)
  /\ wrapper.n_obs w = n_obs /\ wrapper.n_action w = n_action.
Proof.
  unfold wrapper.__init__. intros H.
  destruct (space_utils.repeated_space _ _ n_obs); [|discriminate].
  destruct (space_utils.repeated_space _ _ n_action); [|discriminate].
  inversion H; subst w. repeat split.
Qed.

Lemma observation_space_returns (w : MultiStep) :
  wrapper.observation_space w
  = Ok (@wrapper.V_space E S EnvState Act Kw (wrapper._obs_space w)).
Proof. reflexivity. Qed.

(** C2, as the code has it. Reading [action_space] evaluates the name
    [self_act_space], which is bound nowhere: the read raises [NameError]
    on every wrapper, although the constructor stored the stacked action
    space in [self._act_space]. *)
Theorem action_space_raises (w : MultiStep) :
  wrapper.action_space w = Raise NameError.
Proof. reflexivity. Qed.

(** *** The inner loop *)

Lemma inner_step_dones (w : MultiStep) (a : Act) :
  buffers.dones (wrapper.buf (inner_step w a))
  = buffers.dones (wrapper.buf w) ++ [done_of w a].
Proof. rewrite inner_step_eq. reflexivity. Qed.

Lemma inner_step_rewards (w : MultiStep) (a : Act) :
  buffers.rewards (wrapper.buf (inner_step w a))
  = buffers.rewards (wrapper.buf w)
    ++ [wrapper.out_rew (snd (call_step (wrapper.env w) a))].
Proof. rewrite inner_step_eq. reflexivity. Qed.

Lemma inner_step_calls (w : MultiStep) (a : Act) :
  wrapper.env_calls (wrapper.env (inner_step w a))
  = wrapper.env_calls (wrapper.env w)
    ++ [wrapper.CallStep Kw a (snd (call_step (wrapper.env w) a))].
Proof. rewrite inner_step_eq. cbn. apply call_step_calls. Qed.

Lemma nonempty_and_last_snoc (l : list bool) (d : bool) :
  py.nonempty_and_last (l ++ [d]) = d.
Proof.
  unfold py.nonempty_and_last. rewrite last_last.
  destruct l; reflexivity.
Qed.

Lemma all_false_not_last (l : list bool) :
  existsb (fun d => d) l = false -> py.nonempty_and_last l = false.
Proof.
  destruct l as [|d l] using rev_ind; [reflexivity|].
  rewrite existsb_app, nonempty_and_last_snoc. cbn.
  intros H. apply orb_false_iff in H. destruct H as [_ H].
  rewrite orb_false_r in H. exact H.
Qed.

Lemma inner_loop_latched (w : MultiStep) (action : list Act) :
  py.nonempty_and_last (buffers.dones (wrapper.buf w)) = true ->
  inner_loop w action = w.
Proof.
  intros H. destruct action; cbn [wrapper.inner_loop]; [reflexivity|].
  rewrite H. reflexivity.
Qed.

Lemma inner_loop_app (l1 l2 : list Act) :
  forall w : MultiStep,
    inner_loop w (l1 ++ l2) = inner_loop (inner_loop w l1) l2.
Proof.
  induction l1 as [|a l1 IH]; intros w; cbn [app wrapper.inner_loop].
  - reflexivity.
  - destruct (py.nonempty_and_last _) eqn:Hl.
    + symmetry. apply inner_loop_latched. exact Hl.
    + apply IH.
Qed.

(** What one run of the loop adds: calls of [env.step] only, and their
    rewards at the end of the rewards already there. *)
Lemma inner_loop_trace (action : list Act) :
  forall w : MultiStep,
  exists new,
    wrapper.env_calls (wrapper.env (inner_loop w action))
    = wrapper.env_calls (wrapper.env w) ++ new
    /\ forallb (@wrapper.is_step E S Act Kw) new = true
    /\ length new <= length action
    /\ buffers.rewards (wrapper.buf (inner_loop w action))
       = buffers.rewards (wrapper.buf w) ++ wrapper.step_rewards new.
Proof.
  induction action as [|a rest IH]; intros w; cbn [wrapper.inner_loop].
  - exists []. rewrite !app_nil_r. cbn. auto.
  - destruct (py.nonempty_and_last _).
    + exists []. rewrite !app_nil_r. cbn. repeat split; lia.
    + destruct (IH (inner_step w a)) as (new & Hc & Hs & Hl & Hr).
      exists (wrapper.CallStep Kw a (snd (call_step (wrapper.env w) a)) :: new).
      rewrite Hc, Hr, inner_step_calls, inner_step_rewards, <- !app_assoc.
      cbn. repeat split; [exact Hs|lia].
Qed.

Lemma filter_all (A : Type) (f : A -> bool) (l : list A) :
  forallb f l = true -> filter f l = l.
Proof.
  induction l as [|x l IH]; cbn; [reflexivity|].
  intros H. apply andb_true_iff in H. destruct H as [Hx Hl].
  rewrite Hx, (IH Hl). reflexivity.
Qed.

Lemma step_count_app (e e' : wrapper.EnvObj E S EnvState Act Kw) (new : list Call) :
  wrapper.env_calls e' = wrapper.env_calls e ++ new ->
  forallb (@wrapper.is_step E S Act Kw) new = true ->
  wrapper.step_count e' = wrapper.step_count e + length new.
Proof.
  intros Hc Hs. unfold wrapper.step_count.
  rewrite Hc, filter_app, length_app, (filter_all _ _ Hs). reflexivity.
Qed.

(** C7. On a wrapper just reset, with [n_action = 3] and an environment
    whose first inner step reports termination or truncation, one call
    of [step] with three actions invokes [env.step] exactly once and
    leaves one reward in the buffer.  In general, once the flag recorded
    by an inner step is true, the loop leaves the remaining actions
    unexecuted. *)
Theorem early_termination_short_circuit :
  (forall (w : MultiStep) (kw : Kw) (a1 a2 a3 : Act),
     wrapper.n_action w = 3 ->
     done_of (fst (reset w kw)) a1 = true ->
     wrapper.env_calls (wrapper.env (fst (step (fst (reset w kw)) [a1; a2; a3])))
     = wrapper.env_calls (wrapper.env (fst (reset w kw)))
       ++ [wrapper.CallStep Kw a1
             (snd (call_step (wrapper.env (fst (reset w kw))) a1))]
     /\ wrapper.step_count (wrapper.env (fst (step (fst (reset w kw)) [a1; a2; a3])))
        = wrapper.step_count (wrapper.env (fst (reset w kw))) + 1
     /\ length (buffers.rewards
                  (wrapper.buf (fst (step (fst (reset w kw)) [a1; a2; a3])))) = 1)
  /\ (forall (w : MultiStep) (pre post : list Act),
        py.nonempty_and_last
          (buffers.dones (wrapper.buf (inner_loop w pre))) = true ->
        inner_loop w (pre ++ post) = inner_loop w pre).
Proof.
  split.
  - intros w kw a1 a2 a3 Hn Hd.
    set (w0 := fst (reset w kw)) in *.
    assert (Hn0 : wrapper.n_action w0 = 3).
    { unfold w0. rewrite reset_eq. exact Hn. }
    assert (Hb0 : wrapper.buf w0
                  = buffers.add_obs (buffers.StepBuffers_new E S (wrapper.n_obs w))
                      (snd (call_reset (wrapper.env w) kw))).
    { unfold w0. rewrite reset_eq. reflexivity. }
    assert (Hd0 : buffers.dones (wrapper.buf w0) = []).
    { rewrite Hb0. reflexivity. }
    assert (Hloop : fst (step w0 [a1; a2; a3]) = inner_step w0 a1).
    { rewrite step_eq by (rewrite Hn0; reflexivity).
      cbn [fst wrapper.inner_loop]. rewrite Hd0. cbn [py.nonempty_and_last].
      rewrite inner_step_dones, nonempty_and_last_snoc, Hd. reflexivity. }
    rewrite Hloop. split; [apply inner_step_calls|]. split.
    + rewrite (@step_count_app (wrapper.env w0) _
                 [wrapper.CallStep Kw a1 (snd (call_step (wrapper.env w0) a1))]);
        [reflexivity|apply inner_step_calls|reflexivity].
    + rewrite inner_step_rewards, Hb0. reflexivity.
  - intros w pre post H. rewrite inner_loop_app.
    apply inner_loop_latched. exact H.
Qed.

(** *** Aggregation *)

Lemma supported_lookup (mode : string) :
  buffers.supported mode ->
  exists fn, py.dict_get (buffers.agg_fn_map S) mode = Some fn.
Proof.
  unfold buffers.supported. cbn [In].
  intros [H|[H|[H|[H|[]]]]]; subst mode; eexists; reflexivity.
Qed.

Lemma agg_fn_total (mode : string) (fn : list R -> Exc R) (l : list R) :
  py.dict_get (buffers.agg_fn_map S) mode = Some fn ->
  l <> [] -> exists r, fn l = Ok r.
Proof.
  unfold buffers.agg_fn_map. cbn [py.dict_get]. intros H Hl.
  destruct l as [|x l]; [congruence|].
  repeat match type of H with
         | (if ?c then _ else _) = _ => destruct c
         end;
    inversion H; subst fn; eexists; reflexivity.
Qed.

Lemma aggregate_ok (w : MultiStep) (fn : list R -> Exc R) :
  py.dict_get (buffers.agg_fn_map S) (wrapper.reward_reduce w) = Some fn ->
  buffers.rewards (wrapper.buf w) <> [] ->
  length (buffers.rewards (wrapper.buf w))
  = length (buffers.dones (wrapper.buf w)) ->
  exists r,
    fn (buffers.rewards (wrapper.buf w)) = Ok r
    /\ wrapper.aggregate w
       = Ok (r, if wrapper.ceiling_reached w then true
                else existsb (fun d => d) (buffers.dones (wrapper.buf w))).
Proof.
  intros Hfn Hr Hlen. destruct (agg_fn_total _ Hfn Hr) as [r Hrr].
  exists r. split; [exact Hrr|].
  unfold wrapper.aggregate, buffers.reduce. rewrite Hfn, Hrr. cbn [bind].
  destruct (buffers.dones (wrapper.buf w)) as [|d ds] eqn:Hd.
  - destruct (buffers.rewards (wrapper.buf w)); [congruence|discriminate].
  - reflexivity.
Qed.

Lemma inner_loop_rewards_nonempty (w : MultiStep) (action : list Act) :
  wrapper.buffers_ok w -> action <> [] ->
  buffers.rewards (wrapper.buf (inner_loop w action)) <> [].
Proof.
  intros (_ & _ & _ & Hlen) Ha. destruct action as [|a rest]; [congruence|].
  cbn [wrapper.inner_loop].
  destruct (py.nonempty_and_last _) eqn:Hl.
  - destruct (buffers.dones (wrapper.buf w)); [discriminate|].
    destruct (buffers.rewards (wrapper.buf w)); [discriminate|congruence].
  - destruct (inner_loop_trace rest (inner_step w a)) as (new & _ & _ & _ & Hr).
    rewrite Hr, inner_step_rewards.
    destruct (buffers.rewards (wrapper.buf w)); discriminate.
Qed.

(** C1, as the code has it. The rewards are emptied by [reset] only.  A
    call of [step] keeps the rewards already in the buffer and appends
    those of the inner steps it executes; the reward it aggregates is the
    chosen reduction of all of them, the earlier ones included. *)
Theorem reward_reduces_all_since_reset (w : MultiStep) (action : list Act) :
  reachable w ->
  buffers.supported (wrapper.reward_reduce w) ->
  length action = wrapper.n_action w ->
  1 <= wrapper.n_action w ->
  exists new fn r d,
    wrapper.env_calls (wrapper.env (fst (step w action)))
    = wrapper.env_calls (wrapper.env w) ++ new
    /\ buffers.rewards (wrapper.buf (fst (step w action)))
       = buffers.rewards (wrapper.buf w) ++ wrapper.step_rewards new
    /\ py.dict_get (buffers.agg_fn_map S) (wrapper.reward_reduce w) = Some fn
    /\ fn (buffers.rewards (wrapper.buf w) ++ wrapper.step_rewards new) = Ok r
    /\ wrapper.aggregate (fst (step w action)) = Ok (r, d)
    /\ (forall kw,
          buffers.rewards (wrapper.buf (fst (reset (fst (step w action)) kw)))
          = []).
Proof.
  intros Hreach Hmode Hlen Hn.
  rewrite (@step_eq w action Hlen). cbn [fst].
  pose proof (reachable_buffers_ok Hreach) as Hok.
  pose proof (@inner_loop_buffers_ok action w Hok) as Hok'.
  destruct (inner_loop_trace action w) as (new & Hc & _ & _ & Hr).
  destruct (supported_lookup Hmode) as [fn Hfn].
  destruct (inner_loop_config action w) as (_ & _ & Hcfg & _).
  assert (Hne : buffers.rewards (wrapper.buf (inner_loop w action)) <> []).
  { apply inner_loop_rewards_nonempty; [exact Hok|].
    destruct action; [simpl in Hlen; lia|discriminate]. }
  destruct (@aggregate_ok (inner_loop w action) fn) as (r & Hfr & Hagg).
  - rewrite Hcfg. exact Hfn.
  - exact Hne.
  - apply Hok'.
  - exists new, fn, r. eexists.
    split; [exact Hc|]. split; [exact Hr|]. split; [exact Hfn|].
    split; [rewrite <- Hr; exact Hfr|]. split; [exact Hagg|].
    intros kw. rewrite reset_eq. reflexivity.
Qed.

(** *** Episodes without termination *)

Notation run := (wrapper.run gym_env).
Notation OpStep := (@wrapper.OpStep Act Kw).
Notation all_false w :=
  (existsb (fun d => d) (buffers.dones (wrapper.buf w)) = false).

Lemma inner_loop_never_done (action : list Act) :
  wrapper.never_terminates gym_env ->
  forall w : MultiStep,
    all_false w ->
    all_false (inner_loop w action)
    /\ length (buffers.rewards (wrapper.buf (inner_loop w action)))
       = length (buffers.rewards (wrapper.buf w)) + length action.
Proof.
  intros Hnever.
  induction action as [|a rest IH]; intros w Hf; cbn [wrapper.inner_loop].
  - split; [exact Hf|cbn; lia].
  - rewrite (all_false_not_last _ Hf).
    destruct (IH (inner_step w a)) as [Hf' Hl'].
    + rewrite inner_step_dones, existsb_app, Hf. cbn.
      rewrite orb_false_r, !call_step_out. apply Hnever.
    + split; [exact Hf'|].
      rewrite Hl', inner_step_rewards, length_app. cbn. lia.
Qed.

Lemma run_steps_never_done (calls : list (list Act)) :
  wrapper.never_terminates gym_env ->
  forall w : MultiStep,
    all_false w -> wrapper.buffers_ok w ->
    Forall (fun a => length a = wrapper.n_action w) calls ->
    all_false (run w (map OpStep calls))
    /\ length (buffers.rewards (wrapper.buf (run w (map OpStep calls))))
       = length (buffers.rewards (wrapper.buf w))
         + length calls * wrapper.n_action w
    /\ wrapper.same_config w (run w (map OpStep calls))
    /\ wrapper.buffers_ok (run w (map OpStep calls)).
Proof.
  intros Hnever.
  induction calls as [|a calls IH]; intros w Hf Hok Hall.
  - cbn. repeat split; try assumption; try lia; apply Hok.
  - inversion Hall as [|x l Ha Hrest]; subst x l.
    unfold wrapper.run. cbn [map fold_left wrapper.apply_op].
    rewrite (@step_eq w a Ha). cbn [fst].
    destruct (@inner_loop_never_done a Hnever w Hf) as [Hf1 Hl1].
    pose proof (inner_loop_config a w) as Hcfg.
    pose proof (@inner_loop_buffers_ok a w Hok) as Hok1.
    destruct (IH (inner_loop w a) Hf1 Hok1) as (Hf2 & Hl2 & Hcfg2 & Hok2).
    + destruct Hcfg as (_ & Hna & _). rewrite Hna. exact Hrest.
    + split; [exact Hf2|]. split; [|split].
      * unfold wrapper.run in Hl2. rewrite Hl2, Hl1.
        destruct Hcfg as (_ & Hna & _). rewrite Hna, Ha. cbn [length]. lia.
      * eapply same_config_trans; [exact Hcfg|exact Hcfg2].
      * exact Hok2.
Qed.

(** C3, as the code has it. With a ceiling [k > 0] and an environment
    that never terminates, the call of [step] that follows [reset] and
    [m] earlier macro-steps brings the number of rewards recorded since
    the reset to [(m + 1) * n_action] and computes a flag that is true
    exactly when that number has reached [k]; the call then raises
    [TypeError] while building the stacked observation, so the flag is
    not returned. *)
Theorem episode_ceiling_flag_not_returned (w : MultiStep) (kw : Kw)
    (calls : list (list Act)) (action : list Act) (k : Z) :
  wrapper.never_terminates gym_env ->
  wrapper.max_ep w = Some k -> (0 < k)%Z ->
  buffers.supported (wrapper.reward_reduce w) ->
  1 <= wrapper.n_action w ->
  Forall (fun a => length a = wrapper.n_action w) calls ->
  length action = wrapper.n_action w ->
  exists r,
    length (buffers.rewards
              (wrapper.buf
                 (fst (step (run (fst (reset w kw)) (map OpStep calls)) action))))
    = (length calls + 1) * wrapper.n_action w
    /\ wrapper.aggregate
         (fst (step (run (fst (reset w kw)) (map OpStep calls)) action))
       = Ok (r, (k <=? Z.of_nat ((length calls + 1) * wrapper.n_action w))%Z)
    /\ snd (step (run (fst (reset w kw)) (map OpStep calls)) action)
       = Raise TypeError.
Proof.
  intros Hnever Hk Hpos Hmode Hn Hcalls Hlen.
  set (w0 := fst (reset w kw)).
  assert (Hcfg0 : wrapper.same_config w w0).
  { apply (apply_op_config w (wrapper.OpReset Act kw)). }
  assert (Hf0 : all_false w0) by (unfold w0; rewrite reset_eq; reflexivity).
  assert (Hr0 : buffers.rewards (wrapper.buf w0) = [])
    by (unfold w0; rewrite reset_eq; reflexivity).
  assert (Hok0 : wrapper.buffers_ok w0).
  { unfold w0. rewrite reset_eq. unfold wrapper.buffers_ok. cbn.
    split; [reflexivity|]. split; [apply window_ok_append, window_ok_new|].
    split; [constructor|reflexivity]. }
  destruct Hcfg0 as (_ & Hna0 & Hmode0 & Hk0 & _).
  destruct (@run_steps_never_done calls Hnever w0 Hf0 Hok0)
    as (Hf1 & Hl1 & Hcfg1 & Hok1).
  { rewrite Hna0. exact Hcalls. }
  set (w1 := run w0 (map OpStep calls)) in *.
  destruct Hcfg1 as (_ & Hna1 & Hmode1 & Hk1 & _).
  assert (Hlen1 : length action = wrapper.n_action w1) by congruence.
  rewrite (@step_eq w1 action Hlen1). cbn [fst snd].
  destruct (@inner_loop_never_done action Hnever w1 Hf1) as [Hf2 Hl2].
  pose proof (@inner_loop_buffers_ok action w1 Hok1) as Hok2.
  destruct (inner_loop_config action w1) as (_ & Hna2 & Hmode2 & Hk2 & _).
  set (w2 := inner_loop w1 action) in *.
  assert (Hcount : length (buffers.rewards (wrapper.buf w2))
                   = (length calls + 1) * wrapper.n_action w).
  { rewrite Hl2, Hl1, Hr0, Hlen, Hna0. cbn [length]. lia. }
  destruct (supported_lookup Hmode) as [fn Hfn].
  destruct (@aggregate_ok w2 fn) as (r & _ & Hagg).
  - rewrite Hmode2, Hmode1, Hmode0. exact Hfn.
  - intros Hnil. rewrite Hnil in Hcount. cbn [length] in Hcount. lia.
  - apply Hok2.
  - exists r. split; [exact Hcount|]. rewrite Hagg. split; [|reflexivity].
    rewrite Hf2. unfold wrapper.ceiling_reached.
    rewrite Hk2, Hk1, Hk0, Hk, Hcount.
    destruct (Z.eqb_spec k 0) as [|_]; [lia|]. cbn [negb andb].
    destruct (k <=? Z.of_nat ((length calls + 1) * wrapper.n_action w))%Z;
      reflexivity.
Qed.

(** *** The latch *)

Lemma only_last_done_all_false (l : list bool) :
  wrapper.only_last_done l -> py.nonempty_and_last l = false ->
  existsb (fun d => d) l = false.
Proof.
  unfold wrapper.only_last_done.
  destruct l as [|d l] using rev_ind; [reflexivity|].
  rewrite removelast_last, nonempty_and_last_snoc, existsb_app.
  intros H1 H2. rewrite H1, H2. reflexivity.
Qed.

Lemma only_last_done_latched (l : list bool) :
  wrapper.only_last_done l -> existsb (fun d => d) l = true ->
  py.nonempty_and_last l = true.
Proof.
  intros H1 H2. destruct (py.nonempty_and_last l) eqn:Hl; [reflexivity|].
  rewrite (only_last_done_all_false H1 Hl) in H2. discriminate.
Qed.

Lemma inner_loop_only_last_done (action : list Act) :
  forall w : MultiStep,
    wrapper.only_last_done (buffers.dones (wrapper.buf w)) ->
    wrapper.only_last_done (buffers.dones (wrapper.buf (inner_loop w action))).
Proof.
  induction action as [|a rest IH]; intros w Hw; cbn [wrapper.inner_loop].
  - exact Hw.
  - destruct (py.nonempty_and_last _) eqn:Hl; [exact Hw|].
    apply IH. rewrite inner_step_dones.
    unfold wrapper.only_last_done. rewrite removelast_last.
    apply only_last_done_all_false; assumption.
Qed.

Lemma reachable_only_last_done (w : MultiStep) :
  reachable w -> wrapper.only_last_done (buffers.dones (wrapper.buf w)).
Proof.
  induction 1 as [e n_obs n_action mode ceiling w Hinit | w op _ IH].
  - unfold wrapper.__init__ in Hinit.
    destruct (space_utils.repeated_space _ _ n_obs); [|discriminate].
    destruct (space_utils.repeated_space _ _ n_action); [|discriminate].
    inversion Hinit. reflexivity.
  - destruct op as [kw|action]; cbn [wrapper.apply_op].
    + rewrite reset_eq. reflexivity.
    + unfold wrapper.step.
      destruct (negb (length action =? wrapper.n_action w)); cbn [fst].
      * exact IH.
      * apply inner_loop_only_last_done, IH.
Qed.

(** C10, as the code has it. Once a reachable state holds a true
    termination flag, every call of [step] leaves the wrapper as it is,
    the record of calls on the environment included, and so do all the
    calls that follow until a [reset]; the flag such a call aggregates is
    true; but the call raises [TypeError] while building the stacked
    observation instead of returning it. *)
Theorem done_latch_not_returned (w : MultiStep) :
  reachable w ->
  existsb (fun d => d) (buffers.dones (wrapper.buf w)) = true ->
  (forall action, fst (step w action) = w)
  /\ (forall calls, run w (map OpStep calls) = w)
  /\ (buffers.supported (wrapper.reward_reduce w) ->
      exists r, wrapper.aggregate w = Ok (r, true))
  /\ (forall action,
        length action = wrapper.n_action w ->
        buffers.supported (wrapper.reward_reduce w) ->
        snd (step w action) = Raise TypeError).
Proof.
  intros Hreach Hdone.
  pose proof (only_last_done_latched (reachable_only_last_done Hreach) Hdone)
    as Hlatch.
  destruct (reachable_buffers_ok Hreach) as (_ & _ & _ & Hlen).
  assert (Hstep : forall action, fst (step w action) = w).
  { intros action. unfold wrapper.step.
    destruct (negb (length action =? wrapper.n_action w)); cbn [fst];
      [reflexivity|apply inner_loop_latched, Hlatch]. }
  assert (Hagg : buffers.supported (wrapper.reward_reduce w) ->
                 exists r, wrapper.aggregate w = Ok (r, true)).
  { intros Hmode. destruct (supported_lookup Hmode) as [fn Hfn].
    destruct (@aggregate_ok w fn Hfn) as (r & _ & Hr).
    - destruct (buffers.dones (wrapper.buf w)); [discriminate|].
      destruct (buffers.rewards (wrapper.buf w)); [discriminate|congruence].
    - exact Hlen.
    - exists r. rewrite Hr, Hdone.
      destruct (wrapper.ceiling_reached w); reflexivity. }
  split; [exact Hstep|]. split; [|split; [exact Hagg|]].
  - induction calls as [|a calls IH]; [reflexivity|].
    unfold wrapper.run in *. cbn [map fold_left wrapper.apply_op].
    rewrite Hstep. exact IH.
  - intros action Hl Hmode. rewrite (@step_eq w action Hl). cbn [snd].
    rewrite (@inner_loop_latched w action Hlatch).
    destruct (Hagg Hmode) as [r Hr]. rewrite Hr. reflexivity.
Qed.

End WrapperFacts.

(** ** The wrapper on the small environment *)

Lemma never_done_never_terminates : wrapper.never_terminates demo.never_done.
Proof. intros s a. reflexivity. Qed.

Lemma reachable_episode_start :
  wrapper.reachable demo.never_done demo.spaces_Box demo.episode_start.
Proof.
  apply (wrapper.reach_op (gym_env := demo.never_done)
           (w := demo.make demo.never_done 2 1 "max" None) (wrapper.OpReset nat tt)).
  apply (@wrapper.reach_init _ _ _ _ _ demo.never_done demo.spaces_Box
           demo.fresh_env 2 1 "max" None).
  reflexivity.
Qed.

Lemma reachable_after_first :
  wrapper.reachable demo.never_done demo.spaces_Box demo.after_first.
Proof.
  apply (wrapper.reach_op (wrapper.OpStep unit [0]) reachable_episode_start).
Qed.

Lemma reachable_after_second :
  wrapper.reachable demo.never_done demo.spaces_Box demo.after_second.
Proof.
  apply (wrapper.reach_op (wrapper.OpStep unit [0]) reachable_after_first).
Qed.

Lemma reachable_short_end :
  wrapper.reachable demo.done_at_once demo.spaces_Box demo.short_end.
Proof.
  apply (wrapper.reach_op (gym_env := demo.done_at_once)
           (w := demo.short_start) (wrapper.OpStep unit [7; 8; 9])).
  apply (wrapper.reach_op (gym_env := demo.done_at_once)
           (w := demo.make demo.done_at_once 2 3 "max" None) (wrapper.OpReset nat tt)).
  apply (@wrapper.reach_init _ _ _ _ _ demo.done_at_once demo.spaces_Box
           demo.fresh_env 2 3 "max" None).
  reflexivity.
Qed.

(** The first frame fills the window that [reset] cannot return. *)
Example reset_raises :
  snd (wrapper.reset demo.never_done (demo.make demo.never_done 2 1 "max" None) tt)
  = Raise TypeError
  /\ py.items (buffers.obs (wrapper.buf demo.episode_start)) = [demo.frame 0].
Proof. split; reflexivity. Qed.

Example stack_last_of_a_list :
  space_utils.stack_last (py.List_ [demo.frame 10; demo.frame 20]) 4
  = Ok (np.mk_ndarray [4; 2] np.uint8 [10; 11; 10; 11; 10; 11; 20; 21]%Z).
Proof. reflexivity. Qed.

Example stack_last_of_a_deque :
  space_utils.stack_last
    (py.Deque_ (py.mk_deque 3 [demo.frame 10; demo.frame 20])) 4
  = Raise TypeError.
Proof. reflexivity. Qed.

(** The constructor stored the stacked action space; reading the
    property does not reach it. *)
Example action_space_of_the_small_wrapper :
  space_utils.repeated_space demo.spaces_Box (space_utils.Box_ demo.act_box) 3
  = Ok (wrapper._act_space (demo.make demo.never_done 2 3 "max" None))
  /\ wrapper.action_space (demo.make demo.never_done 2 3 "max" None)
     = Raise NameError
  /\ wrapper.observation_space (demo.make demo.never_done 2 3 "max" None)
     = Ok (wrapper.V_space
             (wrapper._obs_space (demo.make demo.never_done 2 3 "max" None))).
Proof. repeat split. Qed.

(** C1, refuted as stated. In the second macro-step of the episode the
    one inner step pays 1.0, whose [max] is 1.0; the buffer still holds
    the 5.0 of the first macro-step, and the reward aggregated is 5.0. *)
Lemma rewards_not_cleared_by_step :
  buffers.rewards (wrapper.buf demo.after_first) = [5.0%float]
  /\ wrapper.step_rewards
       (skipn (length (wrapper.env_calls (wrapper.env demo.after_first)))
          (wrapper.env_calls (wrapper.env demo.after_second)))
     = [1.0%float]
  /\ buffers.rewards (wrapper.buf demo.after_second) = [5.0%float; 1.0%float]
  /\ wrapper.aggregate demo.after_second = Ok (5.0%float, false)
  /\ reductions.np_max reductions.binary64 [1.0%float] = Ok 1.0%float
  /\ PrimFloat.eqb 5.0 1.0 = false.
Proof. repeat split. Qed.

Lemma reward_reduces_all_since_reset_witness :
  exists new fn r d,
    wrapper.env_calls (wrapper.env demo.after_second)
    = wrapper.env_calls (wrapper.env demo.after_first) ++ new
    /\ buffers.rewards (wrapper.buf demo.after_second)
       = [5.0%float] ++ wrapper.step_rewards new
    /\ py.dict_get (buffers.agg_fn_map reductions.binary64) "max" = Some fn
    /\ fn ([5.0%float] ++ wrapper.step_rewards new) = Ok r
    /\ wrapper.aggregate demo.after_second = Ok (r, d)
    /\ (forall kw,
          buffers.rewards
            (wrapper.buf (fst (wrapper.reset demo.never_done demo.after_second kw)))
          = []).
Proof.
  apply (@reward_reduces_all_since_reset _ _ _ _ _ demo.never_done
           demo.spaces_Box demo.after_first [0] reachable_after_first).
  - cbn. tauto.
  - reflexivity.
  - cbn. lia.
Defined.

Lemma buffer_bounds_witness :
  length (py.items (buffers.obs (wrapper.buf demo.after_second))) <= 3
  /\ Forall (fun kv => length (py.items (snd kv)) <= 3)
       (buffers.infos (wrapper.buf demo.after_second))
  /\ length (buffers.rewards (wrapper.buf demo.after_second))
     = length (buffers.dones (wrapper.buf demo.after_second)).
Proof.
  exact (@buffer_bounds _ _ _ _ _ demo.never_done demo.spaces_Box
           demo.after_second
           reachable_after_second).
Defined.

Lemma step_wrong_action_count_witness :
  snd (wrapper.step demo.never_done demo.episode_start [0; 0])
  = Raise AssertionError
  /\ fst (wrapper.step demo.never_done demo.episode_start [0; 0])
     = demo.episode_start
  /\ wrapper.env_calls
       (wrapper.env (fst (wrapper.step demo.never_done demo.episode_start [0; 0])))
     = wrapper.env_calls (wrapper.env demo.episode_start)
  /\ wrapper.buf (fst (wrapper.step demo.never_done demo.episode_start [0; 0]))
     = wrapper.buf demo.episode_start.
Proof.
  apply (@step_wrong_action_count _ _ _ _ _ demo.never_done demo.episode_start
           [0; 0]).
  cbn. lia.
Defined.

Lemma early_termination_short_circuit_witness :
  wrapper.step_count (wrapper.env demo.short_end)
  = wrapper.step_count (wrapper.env demo.short_start) + 1
  /\ length (buffers.rewards (wrapper.buf demo.short_end)) = 1.
Proof.
  destruct (proj1 (@early_termination_short_circuit _ _ _ _ _ demo.done_at_once)
              (demo.make demo.done_at_once 2 3 "max" None) tt 7 8 9)
    as (_ & Hcount & Hrew).
  - reflexivity.
  - reflexivity.
  - split; [exact Hcount|exact Hrew].
Defined.

Lemma episode_ceiling_flag_not_returned_witness :
  exists r,
    length (buffers.rewards
              (wrapper.buf
                 (fst (wrapper.step demo.never_done
                         (wrapper.run demo.never_done demo.capped_start
                            (map (@wrapper.OpStep nat unit) [[0; 0]; [0; 0]]))
                         [0; 0]))))
    = 6
    /\ wrapper.aggregate
         (fst (wrapper.step demo.never_done
                 (wrapper.run demo.never_done demo.capped_start
                    (map (@wrapper.OpStep nat unit) [[0; 0]; [0; 0]]))
                 [0; 0]))
       = Ok (r, true)
    /\ snd (wrapper.step demo.never_done
              (wrapper.run demo.never_done demo.capped_start
                 (map (@wrapper.OpStep nat unit) [[0; 0]; [0; 0]]))
              [0; 0])
       = Raise TypeError.
Proof.
  apply (@episode_ceiling_flag_not_returned _ _ _ _ _ demo.never_done
           (demo.make demo.never_done 2 2 "sum" (Some 5%Z)) tt
           [[0; 0]; [0; 0]] [0; 0] 5%Z never_done_never_terminates).
  - reflexivity.
  - lia.
  - cbn. tauto.
  - cbn. lia.
  - repeat constructor.
  - reflexivity.
Defined.

Lemma done_latch_not_returned_witness :
  (forall action, fst (wrapper.step demo.done_at_once demo.short_end action)
                  = demo.short_end)
  /\ (forall calls,
        wrapper.run demo.done_at_once demo.short_end
          (map (@wrapper.OpStep nat unit) calls) = demo.short_end)
  /\ (buffers.supported "max" -> exists r, wrapper.aggregate demo.short_end = Ok (r, true))
  /\ (forall action,
        length action = 3 -> buffers.supported "max" ->
        snd (wrapper.step demo.done_at_once demo.short_end action) = Raise TypeError).
Proof.
  apply (@done_latch_not_returned _ _ _ _ _ demo.done_at_once
           demo.spaces_Box demo.short_end
           reachable_short_end).
  reflexivity.
Defined.

(** * Further properties of the three files *)

(** ** space_utils.repeated_space on dictionaries *)

Section DictComprehension.

Variables V W : Type.
Variable f : V -> Exc W.

Lemma dict_comprehension_items (d : list (string * V)) :
  forall d' : list (string * W),
    py.dict_comprehension f d = Ok d' ->
    Forall2 (fun kv kv' => fst kv' = fst kv /\ f (snd kv) = Ok (snd kv')) d d'.
Proof.
  induction d as [|[k v] d IH]; intros d' H; cbn [py.dict_comprehension] in H.
  - inversion H. constructor.
  - destruct (f v) as [v'|e] eqn:Hv; [|discriminate]. cbn [bind] in H.
    destruct (py.dict_comprehension f d) as [rest|e]; [|discriminate].
    cbn [bind] in H. inversion H; subst d'.
    constructor; [split; [reflexivity|exact Hv]|]. apply IH. reflexivity.
Qed.

Lemma dict_comprehension_is_ok (d : list (string * V)) :
  is_ok (py.dict_comprehension f d) = forallb (fun kv => is_ok (f (snd kv))) d.
Proof.
  induction d as [|[k v] d IH]; cbn [py.dict_comprehension forallb snd];
    [reflexivity|].
  destruct (f v) as [v'|e]; cbn [bind is_ok andb]; [|reflexivity].
  rewrite <- IH. destruct (py.dict_comprehension f d); reflexivity.
Qed.

Lemma dict_comprehension_error (d : list (string * V)) (e : PyError) :
  py.dict_comprehension f d = Raise e ->
  exists kv, In kv d /\ f (snd kv) = Raise e.
Proof.
  induction d as [|[k v] d IH]; cbn [py.dict_comprehension]; [discriminate|].
  destruct (f v) as [v'|e0] eqn:Hv; cbn [bind].
  - destruct (py.dict_comprehension f d) as [rest|e1]; cbn [bind];
      [discriminate|].
    intros H. inversion H; subst e1.
    destruct (IH eq_refl) as (kv & Hin & Hkv).
    exists kv. split; [right; exact Hin|exact Hkv].
  - intros H. inversion H; subst e0.
    exists (k, v). split; [left; reflexivity|exact Hv].
Qed.

End DictComprehension.

Section SortedItems.

Variable V : Type.

Notation key_le := (fun k k' : string => String.leb k k' = true).

Lemma insert_item_perm (kv : string * V) (l : list (string * V)) :
  Permutation (kv :: l) (py.insert_item kv l).
Proof.
  induction l as [|kv' l IH]; cbn [py.insert_item]; [apply Permutation_refl|].
  destruct (String.leb (fst kv) (fst kv')); [apply Permutation_refl|].
  eapply perm_trans; [apply perm_swap|]. apply perm_skip. exact IH.
Qed.

Lemma sorted_items_perm (d : list (string * V)) :
  Permutation d (py.sorted_items d).
Proof.
  induction d as [|kv d IH]; cbn [py.sorted_items fold_right]; [constructor|].
  eapply perm_trans; [apply perm_skip; exact IH|]. apply insert_item_perm.
Qed.

Lemma insert_item_sorted (kv : string * V) (l : list (string * V)) :
  Sorted key_le (py.dict_keys l) ->
  Sorted key_le (py.dict_keys (py.insert_item kv l)).
Proof.
  unfold py.dict_keys.
  induction l as [|kv' l IH]; intros Hs; cbn [py.insert_item map].
  - repeat constructor.
  - destruct (String.leb (fst kv) (fst kv')) eqn:Hle; cbn [map].
    + constructor; [exact Hs|]. constructor. exact Hle.
    + assert (Hge : String.leb (fst kv') (fst kv) = true).
      { destruct (String.leb_total (fst kv) (fst kv')) as [H|H];
          [congruence|exact H]. }
      inversion Hs as [|x xs Hs' Hhd]; subst.
      constructor; [apply IH; exact Hs'|].
      destruct l as [|kv'' l]; cbn [py.insert_item map].
      * constructor. exact Hge.
      * destruct (String.leb (fst kv) (fst kv'')); cbn [map]; constructor.
        -- exact Hge.
        -- inversion Hhd; assumption.
Qed.

Lemma sorted_items_sorted (d : list (string * V)) :
  Sorted key_le (py.dict_keys (py.sorted_items d)).
Proof.
  induction d as [|kv d IH]; cbn [py.sorted_items fold_right].
  - constructor.
  - apply insert_item_sorted. exact IH.
Qed.

End SortedItems.

Lemma Forall2_In_l (A B : Type) (R : A -> B -> Prop) (l : list A) (l' : list B)
    (x : A) :
  Forall2 R l l' -> In x l -> exists y, In y l' /\ R x y.
Proof.
  induction 1 as [|a b l l' Hab _ IH]; intros Hin; [destruct Hin|].
  destruct Hin as [<-|Hin].
  - exists b. split; [left; reflexivity|exact Hab].
  - destruct (IH Hin) as (y & Hy & Hxy). exists y. split; [right|]; assumption.
Qed.

Lemma Forall2_In_r (A B : Type) (R : A -> B -> Prop) (l : list A) (l' : list B)
    (y : B) :
  Forall2 R l l' -> In y l' -> exists x, In x l /\ R x y.
Proof.
  induction 1 as [|a b l l' Hab _ IH]; intros Hin; [destruct Hin|].
  destruct Hin as [<-|Hin].
  - exists a. split; [left; reflexivity|exact Hab].
  - destruct (IH Hin) as (x & Hx & Hxy). exists x. split; [right|]; assumption.
Qed.

Section RepeatedSpaceMore.

Variable E : Type.
Variable spaces_Box : np.ndarray E -> np.ndarray E -> np.DType
                      -> Exc (space_utils.Box E).

Notation Space := (space_utils.Space E).
Notation repeated_space := (space_utils.repeated_space spaces_Box).
Notation repeated_box := (space_utils.repeated_box spaces_Box).
Notation key_le := (fun k k' : string => String.leb k k' = true).

(** Induction over a space and the spaces nested in its dictionaries. *)
Lemma Space_nested_ind (P : Space -> Prop) :
  (forall b, P (space_utils.Box_ b)) ->
  (forall d, Forall (fun kv => P (snd kv)) d -> P (space_utils.Dict_ d)) ->
  (forall c, P (space_utils.Other_ c)) ->
  forall sp, P sp.
Proof.
  intros HB HD HO. fix IH 1. intros [b|d|c].
  - apply HB.
  - apply HD. revert d. fix IHd 1. intros [|[k v] d].
    + constructor.
    + constructor; [apply IH|apply IHd].
  - apply HO.
Qed.

Lemma repeated_space_dict (d : list (string * Space)) (n : nat) :
  repeated_space (space_utils.Dict_ d) n
  = (d' <- py.dict_comprehension (fun v => repeated_space v n) d ;;
     Ok (space_utils.spaces_Dict d')).
Proof.
  cbn [space_utils.repeated_space].
  match goal with
  | |- bind (?F d) _ = _ =>
      assert (H : forall l,
                 F l = py.dict_comprehension (fun v => repeated_space v n) l)
  end.
  { induction l as [|[k v] l IHl]; cbn [py.dict_comprehension];
      [reflexivity|]. rewrite IHl. reflexivity. }
  rewrite H. reflexivity.
Qed.

(** What [repeated_box] hands to [spaces.Box], whatever the bounds hold. *)
Lemma repeated_box_eq (b : space_utils.Box E) (n : nat) :
  repeated_box b n
  = spaces_Box
      (np.mk_ndarray (n :: np.shape (space_utils.low b))
         (np.dtype (space_utils.low b))
         (concat (List.repeat
                    (firstn (np.prod_shape (np.shape (space_utils.low b)))
                       (np.data (space_utils.low b))) n)))
      (np.mk_ndarray (n :: np.shape (space_utils.high b))
         (np.dtype (space_utils.high b))
         (concat (List.repeat
                    (firstn (np.prod_shape (np.shape (space_utils.high b)))
                       (np.data (space_utils.high b))) n)))
      np.uint8.
Proof.
  unfold space_utils.repeated_box, np.repeat, np.expand_dims0, np.chunk.
  cbn [np.shape np.dtype np.data seq flat_map Nat.mul skipn bind].
  rewrite !Nat.add_0_r, !app_nil_r. reflexivity.
Qed.

(** The stacked dictionary holds the keys of the input in sorted order,
    whatever their order in the input, and under each key the stacked
    value of the input. *)
Theorem repeated_space_dict_sorts_keys (d : list (string * Space)) (n : nat)
    (sp' : Space) :
  repeated_space (space_utils.Dict_ d) n = Ok sp' ->
  exists d',
    sp' = space_utils.Dict_ d'
    /\ Permutation (py.dict_keys d) (py.dict_keys d')
    /\ Sorted key_le (py.dict_keys d')
    /\ (forall k v', In (k, v') d' ->
        exists v, In (k, v) d /\ repeated_space v n = Ok v')
    /\ (forall k v, In (k, v) d ->
        exists v', In (k, v') d' /\ repeated_space v n = Ok v').
Proof.
  rewrite repeated_space_dict. intros H.
  destruct (py.dict_comprehension (fun v => repeated_space v n) d)
    as [d0|e] eqn:Hd; [|discriminate].
  cbn [bind] in H. inversion H; subst sp'. clear H.
  pose proof (dict_comprehension_items _ _ Hd) as Hitems.
  exists (py.sorted_items d0). split; [reflexivity|].
  split; [|split; [apply sorted_items_sorted|split]].
  - unfold py.dict_keys.
    apply perm_trans with (l' := map fst d0).
    + clear Hd. induction Hitems as [|kv kv' l l' [Hk _] _ IH]; cbn [map];
        [constructor|]. rewrite Hk. apply perm_skip. exact IH.
    + apply Permutation_map. apply sorted_items_perm.
  - intros k v' Hin.
    apply (Permutation_in _ (Permutation_sym (sorted_items_perm d0))) in Hin.
    destruct (@Forall2_In_r _ _ _ _ _ _ Hitems Hin) as ([k0 v] & Hin0 & Hk & Hv).
    cbn [fst snd] in Hk, Hv. subst k0. exists v. split; assumption.
  - intros k v Hin.
    destruct (@Forall2_In_l _ _ _ _ _ _ Hitems Hin) as ([k0 v'] & Hin0 & Hk & Hv).
    cbn [fst snd] in Hk, Hv. subst k0. exists v'. split; [|exact Hv].
    apply (Permutation_in _ (sorted_items_perm d0)). exact Hin0.
Qed.

Lemma is_ok_bind_Ok (A B : Type) (m : Exc A) (g : A -> B) :
  is_ok (x <- m ;; Ok (g x)) = is_ok m.
Proof. destruct m; reflexivity. Qed.

(** [repeated_space] returns exactly when every leaf is a box and
    [spaces.Box] accepts the repeated bounds of every box. *)
Lemma repeated_space_is_ok (sp : Space) (n : nat) :
  is_ok (repeated_space sp n)
  = space_utils.boxes_only sp
    && forallb (fun b => is_ok (repeated_box b n)) (space_utils.boxes sp).
Proof.
  induction sp as [b|d IH|c] using Space_nested_ind.
  - cbn [space_utils.repeated_space space_utils.boxes_only space_utils.boxes
         forallb].
    rewrite is_ok_bind_Ok, andb_true_r. reflexivity.
  - rewrite repeated_space_dict, is_ok_bind_Ok, dict_comprehension_is_ok.
    cbn [space_utils.boxes_only space_utils.boxes].
    induction IH as [|kv l Hkv _ IHl]; cbn [forallb flat_map]; [reflexivity|].
    rewrite forallb_app, Hkv, IHl.
    destruct (space_utils.boxes_only (snd kv));
      destruct (forallb (fun b => is_ok (repeated_box b n))
                  (space_utils.boxes (snd kv)));
      destruct (forallb (fun kv0 => space_utils.boxes_only (snd kv0)) l);
      reflexivity.
  - reflexivity.
Qed.

(** An exception of [repeated_space] is the [TypeError] of line 50 or
    was raised by [spaces.Box] on one of the boxes. *)
Lemma repeated_space_error (sp : Space) (n : nat) :
  forall e,
    repeated_space sp n = Raise e ->
    e = TypeError
    \/ exists b, In b (space_utils.boxes sp) /\ repeated_box b n = Raise e.
Proof.
  induction sp as [b|d IH|c] using Space_nested_ind; intros e H.
  - cbn [space_utils.repeated_space] in H.
    destruct (repeated_box b n) as [b'|e0] eqn:Hb; [discriminate|].
    cbn [bind] in H. inversion H; subst e0. right. exists b.
    split; [left; reflexivity|exact Hb].
  - rewrite repeated_space_dict in H.
    destruct (py.dict_comprehension (fun v => repeated_space v n) d)
      as [d0|e0] eqn:Hd; [discriminate|].
    cbn [bind] in H. inversion H; subst e0.
    destruct (dict_comprehension_error _ _ Hd) as (kv & Hin & Hkv).
    rewrite Forall_forall in IH.
    destruct (IH kv Hin e Hkv) as [He|(b & Hb & Hr)]; [left; exact He|].
    right. exists b. split; [|exact Hr].
    cbn [space_utils.boxes]. apply in_flat_map. exists kv. split; assumption.
  - inversion H. left. reflexivity.
Qed.

(** The transform returns exactly on the spaces made of boxes whose
    repeated bounds [spaces.Box] accepts, however deep the dictionaries;
    what it raises is [TypeError], for a space of another class, or the
    exception of [spaces.Box] on one of the boxes. *)
Theorem repeated_space_returns_iff (sp : Space) (n : nat) :
  is_ok (repeated_space sp n)
  = space_utils.boxes_only sp
    && forallb (fun b => is_ok (repeated_box b n)) (space_utils.boxes sp)
  /\ (forall e,
        repeated_space sp n = Raise e ->
        e = TypeError
        \/ exists b, In b (space_utils.boxes sp) /\ repeated_box b n = Raise e)
  /\ (forall cls, repeated_space (space_utils.Other_ cls) n = Raise TypeError).
Proof.
  split; [apply repeated_space_is_ok|].
  split; [apply repeated_space_error|]. intros cls. reflexivity.
Qed.

(** The boxes of the stacked space are the boxes [repeated_box] returns
    on the boxes of the input, and every box of the input has one. *)
Lemma repeated_space_boxes_rel (sp : Space) (n : nat) :
  forall sp' : Space,
    repeated_space sp n = Ok sp' ->
    (forall b', In b' (space_utils.boxes sp') ->
       exists b, In b (space_utils.boxes sp) /\ repeated_box b n = Ok b')
    /\ (forall b, In b (space_utils.boxes sp) ->
          exists b', In b' (space_utils.boxes sp') /\ repeated_box b n = Ok b').
Proof.
  induction sp as [b|d IH|c] using Space_nested_ind; intros sp' H.
  - cbn [space_utils.repeated_space] in H.
    destruct (repeated_box b n) as [b0|e] eqn:Hb; [|discriminate].
    cbn [bind] in H. inversion H; subst sp'. cbn [space_utils.boxes].
    split; intros x [<-|[]]; eexists; (split; [left; reflexivity|exact Hb]).
  - rewrite repeated_space_dict in H.
    destruct (py.dict_comprehension (fun v => repeated_space v n) d)
      as [d0|e] eqn:Hd; [|discriminate].
    cbn [bind] in H. inversion H; subst sp'. clear H.
    pose proof (dict_comprehension_items _ _ Hd) as Hitems.
    rewrite Forall_forall in IH.
    unfold space_utils.spaces_Dict. cbn [space_utils.boxes]. split.
    + intros b' Hb'. apply in_flat_map in Hb'.
      destruct Hb' as (kv' & Hin' & Hb').
      apply (Permutation_in _ (Permutation_sym (sorted_items_perm d0))) in Hin'.
      destruct (@Forall2_In_r _ _ _ _ _ _ Hitems Hin') as (kv & Hin & _ & Hkv).
      destruct (proj1 (IH kv Hin (snd kv') Hkv) b' Hb') as (b & Hb & Hr).
      exists b. split; [|exact Hr].
      apply in_flat_map. exists kv. split; assumption.
    + intros b Hb. apply in_flat_map in Hb.
      destruct Hb as (kv & Hin & Hb).
      destruct (@Forall2_In_l _ _ _ _ _ _ Hitems Hin) as (kv' & Hin' & _ & Hkv).
      destruct (proj2 (IH kv Hin (snd kv') Hkv) b Hb) as (b' & Hb' & Hr).
      exists b'. split; [|exact Hr].
      apply in_flat_map. exists kv'. split; [|exact Hb'].
      apply (Permutation_in _ (sorted_items_perm d0)). exact Hin'.
  - discriminate.
Qed.

End RepeatedSpaceMore.

Section RepeatedSpaceGymnasium.

Variable c_cast : np.DType -> np.DType -> Z -> Z.

Notation spaces_Box := (gymnasium.spaces_Box c_cast).

(** With gymnasium's constructor, every box of the stacked space has
    dtype uint8 and the shape of the box of the input it was built from,
    behind a new leading axis of length [n], at every nesting depth; every
    box of the input has its box in the result; and the transform raises
    nothing but [TypeError] and [ValueError]. *)
Theorem repeated_space_boxes_are_uint8 (sp : space_utils.Space Z) (n : nat) :
  (forall sp',
     space_utils.repeated_space spaces_Box sp n = Ok sp' ->
     (forall b', In b' (space_utils.boxes sp') ->
        space_utils.box_dtype b' = np.uint8
        /\ exists b, In b (space_utils.boxes sp)
                     /\ space_utils.box_shape b' = n :: space_utils.box_shape b
                     /\ space_utils.repeated_box spaces_Box b n = Ok b')
     /\ (forall b, In b (space_utils.boxes sp) ->
           exists b', In b' (space_utils.boxes sp')
                      /\ space_utils.repeated_box spaces_Box b n = Ok b'))
  /\ (forall e,
        space_utils.repeated_space spaces_Box sp n = Raise e ->
        e = TypeError \/ e = ValueError).
Proof.
  split.
  - intros sp' H.
    destruct (@repeated_space_boxes_rel Z spaces_Box sp n sp' H) as [H1 H2].
    split; [|exact H2].
    intros b' Hb'. destruct (H1 b' Hb') as (b & Hb & Hr).
    pose proof Hr as Hr'. rewrite repeated_box_eq in Hr'.
    destruct (@spaces_Box_returns c_cast _ _ _ _ Hr') as (Hd & Hs & _).
    split; [exact Hd|]. exists b. split; [exact Hb|].
    split; [exact Hs|exact Hr].
  - intros e H.
    destruct (@repeated_space_error Z spaces_Box sp n e H)
      as [He|(b & _ & Hr)]; [left; exact He|].
    right. rewrite repeated_box_eq in Hr.
    exact (@spaces_Box_raises c_cast _ _ _ _ Hr).
Qed.

End RepeatedSpaceGymnasium.

Lemma repeated_space_dict_sorts_keys_witness :
  exists d',
    space_utils.repeated_space demo.spaces_Box demo.unsorted_space 4
    = Ok (space_utils.Dict_ d')
    /\ py.dict_keys d' = ["goal"; "image"; "robot"]%string.
Proof.
  destruct (space_utils.repeated_space demo.spaces_Box demo.unsorted_space 4)
    as [sp'|e] eqn:H; [|discriminate H].
  destruct (@repeated_space_dict_sorts_keys Z demo.spaces_Box _ 4 sp' H)
    as (d' & -> & _).
  exists d'. split; [reflexivity|].
  vm_compute in H. inversion H. reflexivity.
Defined.

Lemma repeated_space_boxes_are_uint8_witness :
  exists sp',
    space_utils.repeated_space demo.spaces_Box demo.dict_space 4 = Ok sp'
    /\ Forall (fun b' => space_utils.box_dtype b' = np.uint8)
         (space_utils.boxes sp')
    /\ map (@space_utils.box_shape Z) (space_utils.boxes sp')
       = [[4; 2]; [4; 3]].
Proof.
  destruct (space_utils.repeated_space demo.spaces_Box demo.dict_space 4)
    as [sp'|e] eqn:H; [|discriminate H].
  exists sp'. split; [reflexivity|]. split.
  - apply Forall_forall. intros b' Hb'.
    exact (proj1 (proj1 (proj1 (@repeated_space_boxes_are_uint8
                                  gymnasium.wrap_cast demo.dict_space 4)
                           sp' H) b' Hb')).
  - vm_compute in H. inversion H. reflexivity.
Defined.

Example repeated_space_of_a_mixed_dict :
  space_utils.repeated_space demo.spaces_Box demo.mixed_space 4
  = Raise TypeError.
Proof. reflexivity. Qed.

Example repeated_space_of_a_dict_with_floats :
  space_utils.repeated_space demo.spaces_Box demo.float_space 4
  = Raise ValueError.
Proof. reflexivity. Qed.

(** ** space_utils.stack_last and the frames it does not read *)

Section StackLastMore.

Variable E : Type.

Notation ndarray := (np.ndarray E).

(** With at least [n] frames in the history, the frames before the last
    [n] have no influence on the stack, whatever they are. *)
Theorem stack_last_ignores_older_frames (older h : list ndarray) (n : nat) :
  1 <= n -> n <= length h ->
  space_utils.stack_last (py.List_ (older ++ h)) n
  = space_utils.stack_last (py.List_ h) n.
Proof.
  intros Hn Hh. unfold space_utils.stack_last, py.len. cbn [py.to_list].
  rewrite !pad_as_nat, length_app.
  replace (n - (length older + length h)) with 0 by lia.
  replace (n - length h) with 0 by lia.
  destruct n as [|n']; [lia|].
  unfold py.getitem_last_n, py.list_last_n. cbn [bind py.to_list].
  rewrite length_app, skipn_app.
  rewrite (skipn_all2 older) by lia. cbn [app].
  replace (length older + length h - S n' - length older)
    with (length h - S n') by lia.
  reflexivity.
Qed.

End StackLastMore.

Lemma stack_last_ignores_older_frames_witness :
  space_utils.stack_last
    (py.List_ ([demo.frame 1; demo.frame 2] ++ [demo.frame 10; demo.frame 20])) 2
  = space_utils.stack_last (py.List_ [demo.frame 10; demo.frame 20]) 2.
Proof.
  apply (@stack_last_ignores_older_frames Z); cbn; lia.
Defined.

(** ** buffers.StepBuffers *)

Section DictFacts.

Variable V : Type.

Lemma dict_get_absent (d : list (string * V)) (k : string) :
  ~ In k (py.dict_keys d) -> py.dict_get d k = None.
Proof.
  induction d as [|[k' v] d IH]; cbn [py.dict_get py.dict_keys map fst In];
    [reflexivity|].
  intros H. destruct (String.eqb_spec k' k) as [->|_]; [tauto|].
  apply IH. unfold py.dict_keys. tauto.
Qed.

Lemma setdefault_update_get_same (d : list (string * V)) (k : string)
    (v0 : V) (f : V -> V) :
  py.dict_get (py.dict_setdefault_update d k v0 f) k
  = Some (f (match py.dict_get d k with Some v => v | None => v0 end)).
Proof.
  induction d as [|[k' v] d IH]; cbn [py.dict_setdefault_update py.dict_get].
  - rewrite String.eqb_refl. reflexivity.
  - destruct (String.eqb k' k) eqn:Hk; cbn [py.dict_get]; rewrite Hk;
      [reflexivity|exact IH].
Qed.

Lemma setdefault_update_get_other (d : list (string * V)) (k k0 : string)
    (v0 : V) (f : V -> V) :
  k0 <> k ->
  py.dict_get (py.dict_setdefault_update d k0 v0 f) k = py.dict_get d k.
Proof.
  intros Hne.
  induction d as [|[k' v] d IH]; cbn [py.dict_setdefault_update py.dict_get].
  - destruct (String.eqb_spec k0 k); [contradiction|reflexivity].
  - destruct (String.eqb_spec k' k0) as [->|_]; cbn [py.dict_get].
    + destruct (String.eqb_spec k0 k); [contradiction|reflexivity].
    + rewrite IH. reflexivity.
Qed.

Lemma setdefault_update_keys (d : list (string * V)) (k : string)
    (v0 : V) (f : V -> V) :
  py.dict_keys (py.dict_setdefault_update d k v0 f)
  = if py.dict_contains d k then py.dict_keys d else py.dict_keys d ++ [k].
Proof.
  unfold py.dict_contains, py.dict_keys.
  induction d as [|[k' v] d IH];
    cbn [py.dict_setdefault_update map fst existsb app]; [reflexivity|].
  rewrite (String.eqb_sym k k').
  destruct (String.eqb k' k); cbn [map fst orb]; [reflexivity|].
  rewrite IH. destruct (existsb (String.eqb k) (map fst d)); reflexivity.
Qed.

Lemma dict_contains_spec (d : list (string * V)) (k : string) :
  py.dict_contains d k = true <-> In k (py.dict_keys d).
Proof.
  unfold py.dict_contains. rewrite existsb_exists. split.
  - intros (x & Hin & Hx). apply String.eqb_eq in Hx. subst x. exact Hin.
  - intros Hin. exists k. split; [exact Hin|apply String.eqb_refl].
Qed.

End DictFacts.

Section BuffersMore.

Variable E : Type.
Variable S : reductions.Scalars.

Notation ndarray := (np.ndarray E).
Notation StepBuffers := (@buffers.StepBuffers E S).

(** The loop of [add_info], on the dictionary alone. *)
Notation add_all n info d :=
  (fold_left
     (fun d kv =>
        py.dict_setdefault_update d (fst kv) (py.deque_new ndarray (n + 1))
          (fun w => py.deque_append w (snd kv)))
     info d).

Lemma add_all_lookup (n : nat) (info : list (string * ndarray)) (k : string) :
  NoDup (py.dict_keys info) ->
  forall d : list (string * py.deque ndarray),
    py.dict_get (add_all n info d) k
    = match py.dict_get info k with
      | Some v =>
          Some (py.deque_append
                  (match py.dict_get d k with
                   | Some w => w
                   | None => py.deque_new ndarray (n + 1)
                   end) v)
      | None => py.dict_get d k
      end.
Proof.
  induction info as [|[k0 v0] info IH]; intros Hnd d; cbn [fold_left];
    [reflexivity|].
  unfold py.dict_keys in Hnd. cbn [map fst] in Hnd.
  inversion Hnd as [|x l Hnotin Hnd']; subst x l.
  rewrite (IH Hnd'). cbn [py.dict_get fst snd].
  destruct (String.eqb_spec k0 k) as [->|Hne].
  - rewrite (@dict_get_absent _ info k Hnotin), setdefault_update_get_same.
    reflexivity.
  - rewrite setdefault_update_get_other by exact Hne. reflexivity.
Qed.

(** After [add_info], the window of a field the record names is its
    previous window, or a new empty one of capacity [n_obs + 1] if the
    field was never seen, with the value appended; the window of any
    other field is as before.  (The keys of the record are distinct, as
    those of a dict are.) *)
Theorem add_info_lookup (b : StepBuffers) (info : list (string * ndarray))
    (k : string) :
  NoDup (py.dict_keys info) ->
  py.dict_get (buffers.infos (buffers.add_info b info)) k
  = match py.dict_get info k with
    | Some v =>
        Some (py.deque_append
                (match py.dict_get (buffers.infos b) k with
                 | Some w => w
                 | None => py.deque_new ndarray (buffers.n_obs b + 1)
                 end) v)
    | None => py.dict_get (buffers.infos b) k
    end.
Proof. intros Hnd. apply (@add_all_lookup _ info k Hnd). Qed.

Lemma add_all_keys (n : nat) (info : list (string * ndarray)) :
  NoDup (py.dict_keys info) ->
  forall d : list (string * py.deque ndarray),
    py.dict_keys (add_all n info d)
    = py.dict_keys d
      ++ filter (fun k => negb (py.dict_contains d k)) (py.dict_keys info).
Proof.
  induction info as [|[k0 v0] info IH]; intros Hnd d; cbn [fold_left].
  - cbn. rewrite app_nil_r. reflexivity.
  - unfold py.dict_keys in Hnd. cbn [map fst] in Hnd.
    inversion Hnd as [|x l Hnotin Hnd']; subst x l.
    rewrite (IH Hnd'). cbn [fst snd]. rewrite setdefault_update_keys.
    change (py.dict_keys ((k0, v0) :: info)) with (k0 :: py.dict_keys info).
    cbn [filter].
    assert (Hfilter :
      filter (fun k => negb (py.dict_contains
                               (py.dict_setdefault_update d k0
                                  (py.deque_new ndarray (n + 1))
                                  (fun w => py.deque_append w v0)) k))
        (py.dict_keys info)
      = filter (fun k => negb (py.dict_contains d k)) (py.dict_keys info)).
    { apply filter_ext_in. intros k Hk. f_equal.
      apply eq_true_iff_eq. rewrite !dict_contains_spec, setdefault_update_keys.
      destruct (py.dict_contains d k0) eqn:Hc; [reflexivity|].
      rewrite in_app_iff. cbn [In]. split; [|tauto].
      intros [H|[H|[]]]; [exact H|]. subst k. contradiction. }
    rewrite Hfilter.
    destruct (py.dict_contains d k0); cbn [negb]; [reflexivity|].
    rewrite <- app_assoc. reflexivity.
Qed.

(** [add_info] keeps the fields already in the buffer in their order and
    puts the fields it sees for the first time after them, in the order
    of the record. *)
Theorem add_info_key_order (b : StepBuffers) (info : list (string * ndarray)) :
  NoDup (py.dict_keys info) ->
  py.dict_keys (buffers.infos (buffers.add_info b info))
  = py.dict_keys (buffers.infos b)
    ++ filter (fun k => negb (py.dict_contains (buffers.infos b) k))
         (py.dict_keys info).
Proof. intros Hnd. apply (@add_all_keys _ info Hnd). Qed.

Lemma reduce_no_flags (b : StepBuffers) (mode : string) :
  buffers.dones b = [] -> buffers.reduce b mode = Raise ValueError.
Proof.
  intros Hd. unfold buffers.reduce, buffers.agg_fn_map. cbn [py.dict_get].
  rewrite Hd.
  repeat match goal with
         | |- context [if ?c then _ else _] => destruct c
         end;
    try reflexivity;
    destruct (buffers.rewards b); reflexivity.
Qed.

Ltac reduce_case :=
  split;
  [ split;
    [ intros [rd H]; try discriminate H;
      repeat split; auto; try discriminate; try (left; discriminate)
    | intros (_ & Hd & [Hr|[Hr|Hr]]);
      try congruence; try discriminate Hr; eexists; reflexivity ]
  | intros e H; try discriminate H; inversion H; reflexivity ].

(** [reduce] returns exactly when the mode is one of the four, at least
    one flag is recorded, and there is a reward to reduce or the mode is
    [mean] or [sum], which accept none; in every other case it raises
    [ValueError] and nothing else. *)
Theorem reduce_returns_iff (b : StepBuffers) (mode : string) :
  ((exists rd, buffers.reduce b mode = Ok rd)
   <-> (buffers.supported mode
        /\ buffers.dones b <> []
        /\ (buffers.rewards b <> []
            \/ mode = "mean"%string \/ mode = "sum"%string)))
  /\ (forall e, buffers.reduce b mode = Raise e -> e = ValueError).
Proof.
  unfold buffers.reduce, buffers.agg_fn_map, buffers.supported.
  cbn [py.dict_get In].
  destruct (String.eqb_spec "max" mode) as [<-|Hmax].
  { destruct (buffers.rewards b), (buffers.dones b); cbn; reduce_case. }
  destruct (String.eqb_spec "min" mode) as [<-|Hmin].
  { destruct (buffers.rewards b), (buffers.dones b); cbn; reduce_case. }
  destruct (String.eqb_spec "mean" mode) as [<-|Hmean].
  { destruct (buffers.rewards b), (buffers.dones b); cbn; reduce_case. }
  destruct (String.eqb_spec "sum" mode) as [<-|Hsum].
  { destruct (buffers.rewards b), (buffers.dones b); cbn; reduce_case. }
  split; [split|].
  - intros [rd H]. discriminate H.
  - intros (Hs & _). exfalso. tauto.
  - intros e H. inversion H. reflexivity.
Qed.

End BuffersMore.

Lemma add_info_lookup_witness :
  py.dict_get
    (buffers.infos
       (buffers.add_info
          (buffers.add_info (buffers.StepBuffers_new Z reductions.binary64 1)
             [("t"%string, demo.frame 0)])
          [("t"%string, demo.frame 1); ("u"%string, demo.frame 7)])) "u"
  = Some (py.mk_deque 2 [demo.frame 7]).
Proof.
  rewrite (@add_info_lookup Z reductions.binary64).
  - reflexivity.
  - repeat constructor; cbn; intuition discriminate.
Defined.

Lemma add_info_key_order_witness :
  py.dict_keys
    (buffers.infos
       (buffers.add_info
          (buffers.add_info (buffers.StepBuffers_new Z reductions.binary64 1)
             [("t"%string, demo.frame 0)])
          [("u"%string, demo.frame 7); ("t"%string, demo.frame 1)]))
  = ["t"; "u"]%string.
Proof.
  rewrite (@add_info_key_order Z reductions.binary64).
  - reflexivity.
  - repeat constructor; cbn; intuition discriminate.
Defined.

(** [np.sum] accepts an empty list, [np.max] of no flags does not. *)
Example reduce_of_a_new_buffer :
  buffers.reduce (buffers.StepBuffers_new Z reductions.binary64 4) "sum"
  = Raise ValueError.
Proof. reflexivity. Qed.

(** ** wrapper.MultiStep over whole episodes *)

Section WrapperMore.

Variable E : Type.
Variable S : reductions.Scalars.
Variables EnvState Act Kw : Type.
Variable gym_env : wrapper.Env E S EnvState Act Kw.
Variable spaces_Box : np.ndarray E -> np.ndarray E -> np.DType
                      -> Exc (space_utils.Box E).

Notation ndarray := (np.ndarray E).
Notation R := (reductions.scalar S).
Notation MultiStep := (wrapper.MultiStep E S EnvState Act Kw).
Notation Call := (wrapper.Call E S Act Kw).
Notation call_step := (wrapper.call_step gym_env).
Notation call_reset := (wrapper.call_reset gym_env).
Notation inner_step := (wrapper.inner_step gym_env).
Notation inner_loop := (wrapper.inner_loop gym_env).
Notation step := (wrapper.step gym_env).
Notation reset := (wrapper.reset gym_env).
Notation run := (wrapper.run gym_env).
Notation reachable := (wrapper.reachable gym_env spaces_Box).
Notation OpStep := (@wrapper.OpStep Act Kw).
Notation is_step := (@wrapper.is_step E S Act Kw).
Notation step_actions := (@wrapper.step_actions E S Act Kw).
Notation step_rewards := (@wrapper.step_rewards E S Act Kw).
Notation step_dones := (@wrapper.step_dones E S Act Kw).
Notation step_obs := (@wrapper.step_obs E S Act Kw).

Notation shows := (@py.shows ndarray).

Lemma deque_append_shows (m : nat) (hist : list ndarray)
    (d : py.deque ndarray) (x : ndarray) :
  shows m hist d -> shows m (hist ++ [x]) (py.deque_append d x).
Proof.
  unfold py.shows. intros [Hm Hi]. unfold py.deque_append.
  cbn [py.maxlen py.items]. split; [exact Hm|]. rewrite Hm, Hi.
  replace (skipn (length hist - m) hist ++ [x])
    with (skipn (length hist - m) (hist ++ [x])).
  - rewrite skipn_skipn. f_equal.
    rewrite length_skipn, !length_app. cbn [length]. lia.
  - rewrite skipn_app. f_equal.
    replace (length hist - m - length hist) with 0 by lia. reflexivity.
Qed.

Lemma inner_step_obs (w : MultiStep) (a : Act) :
  buffers.obs (wrapper.buf (inner_step w a))
  = py.deque_append (buffers.obs (wrapper.buf w))
      (wrapper.out_obs (snd (call_step (wrapper.env w) a))).
Proof. rewrite inner_step_eq. reflexivity. Qed.

(** Everything one run of the loop does, read off the calls it adds. *)
Lemma inner_loop_episode (action : list Act) :
  forall w : MultiStep,
    exists new,
      wrapper.env_calls (wrapper.env (inner_loop w action))
      = wrapper.env_calls (wrapper.env w) ++ new
      /\ forallb is_step new = true
      /\ step_actions new = firstn (length new) action
      /\ length new <= length action
      /\ buffers.rewards (wrapper.buf (inner_loop w action))
         = buffers.rewards (wrapper.buf w) ++ step_rewards new
      /\ buffers.dones (wrapper.buf (inner_loop w action))
         = buffers.dones (wrapper.buf w) ++ step_dones new
      /\ (forall (m : nat) (hist : list ndarray),
            shows m hist (buffers.obs (wrapper.buf w)) ->
            shows m (hist ++ step_obs new)
              (buffers.obs (wrapper.buf (inner_loop w action)))).
Proof.
  induction action as [|a rest IH]; intros w; cbn [wrapper.inner_loop].
  - exists []. cbn. rewrite !app_nil_r.
    split; [reflexivity|]. split; [reflexivity|]. split; [reflexivity|].
    split; [lia|]. split; [reflexivity|]. split; [reflexivity|].
    intros m hist H. rewrite app_nil_r. exact H.
  - destruct (py.nonempty_and_last _).
    + exists []. cbn. rewrite !app_nil_r.
      split; [reflexivity|]. split; [reflexivity|]. split; [reflexivity|].
      split; [lia|]. split; [reflexivity|]. split; [reflexivity|].
      intros m hist H. rewrite app_nil_r. exact H.
    + destruct (IH (inner_step w a)) as (new & Hc & Hs & Ha & Hl & Hr & Hd & Ho).
      exists (wrapper.CallStep Kw a (snd (call_step (wrapper.env w) a)) :: new).
      rewrite Hc, Hr, Hd, inner_step_calls, inner_step_rewards, inner_step_dones.
      rewrite <- !app_assoc. cbn [app length firstn].
      unfold wrapper.step_actions, wrapper.step_rewards, wrapper.step_dones,
        wrapper.step_obs in *.
      cbn [flat_map app forallb wrapper.is_step andb].
      rewrite Ha.
      split; [reflexivity|]. split; [exact Hs|]. split; [reflexivity|].
      split; [lia|]. split; [reflexivity|]. split; [reflexivity|].
      intros m hist Hsh.
      specialize (Ho m (hist ++ [wrapper.out_obs
                                   (snd (call_step (wrapper.env w) a))])).
      rewrite <- app_assoc in Ho. apply Ho.
      rewrite inner_step_obs. apply deque_append_shows. exact Hsh.
Qed.

(** A call of [step] only ever calls [env.step]: at most as many times as
    it is given actions, with the actions it is given, in their order,
    from the first one on. *)
Theorem step_forwards_a_prefix_of_the_actions (w : MultiStep) (action : list Act) :
  exists new,
    wrapper.env_calls (wrapper.env (fst (step w action)))
    = wrapper.env_calls (wrapper.env w) ++ new
    /\ forallb is_step new = true
    /\ step_actions new = firstn (length new) action
    /\ length new <= length action.
Proof.
  unfold wrapper.step.
  destruct (negb (length action =? wrapper.n_action w)); cbn [fst].
  - exists []. rewrite app_nil_r. cbn. repeat split. lia.
  - destruct (inner_loop_episode action w) as (new & Hc & Hs & Ha & Hl & _).
    exists new. auto.
Qed.

Lemma step_episode (w : MultiStep) (action : list Act) :
  exists new,
    wrapper.env_calls (wrapper.env (fst (step w action)))
    = wrapper.env_calls (wrapper.env w) ++ new
    /\ forallb is_step new = true
    /\ buffers.rewards (wrapper.buf (fst (step w action)))
       = buffers.rewards (wrapper.buf w) ++ step_rewards new
    /\ buffers.dones (wrapper.buf (fst (step w action)))
       = buffers.dones (wrapper.buf w) ++ step_dones new
    /\ (forall (m : nat) (hist : list ndarray),
          shows m hist (buffers.obs (wrapper.buf w)) ->
          shows m (hist ++ step_obs new)
            (buffers.obs (wrapper.buf (fst (step w action))))).
Proof.
  unfold wrapper.step.
  destruct (negb (length action =? wrapper.n_action w)); cbn [fst].
  - exists []. cbn. rewrite !app_nil_r.
    split; [reflexivity|]. split; [reflexivity|]. split; [reflexivity|].
    split; [reflexivity|]. intros m hist H. rewrite app_nil_r. exact H.
  - destruct (inner_loop_episode action w)
      as (new & Hc & Hs & _ & _ & Hr & Hd & Ho).
    exists new. auto.
Qed.

Lemma run_steps_episode (calls : list (list Act)) :
  forall w : MultiStep,
    exists new,
      wrapper.env_calls (wrapper.env (run w (map OpStep calls)))
      = wrapper.env_calls (wrapper.env w) ++ new
      /\ forallb is_step new = true
      /\ buffers.rewards (wrapper.buf (run w (map OpStep calls)))
         = buffers.rewards (wrapper.buf w) ++ step_rewards new
      /\ buffers.dones (wrapper.buf (run w (map OpStep calls)))
         = buffers.dones (wrapper.buf w) ++ step_dones new
      /\ (forall (m : nat) (hist : list ndarray),
            shows m hist (buffers.obs (wrapper.buf w)) ->
            shows m (hist ++ step_obs new)
              (buffers.obs (wrapper.buf (run w (map OpStep calls))))).
Proof.
  induction calls as [|a calls IH]; intros w.
  - exists []. cbn. rewrite !app_nil_r.
    split; [reflexivity|]. split; [reflexivity|]. split; [reflexivity|].
    split; [reflexivity|]. intros m hist H. rewrite app_nil_r. exact H.
  - unfold wrapper.run in *. cbn [map fold_left wrapper.apply_op].
    destruct (step_episode w a) as (new1 & Hc1 & Hs1 & Hr1 & Hd1 & Ho1).
    destruct (IH (fst (step w a))) as (new2 & Hc2 & Hs2 & Hr2 & Hd2 & Ho2).
    exists (new1 ++ new2).
    rewrite Hc2, Hc1, Hr2, Hr1, Hd2, Hd1, <- !app_assoc.
    unfold wrapper.step_rewards, wrapper.step_dones, wrapper.step_obs in *.
    rewrite !flat_map_app, forallb_app, Hs1, Hs2.
    split; [reflexivity|]. split; [reflexivity|]. split; [reflexivity|].
    split; [reflexivity|]. intros m hist H.
    rewrite app_assoc. apply Ho2, Ho1, H.
Qed.

Lemma call_reset_calls (e : wrapper.EnvObj E S EnvState Act Kw) (kw : Kw) :
  wrapper.env_calls (fst (call_reset e kw))
  = wrapper.env_calls e ++ [wrapper.CallReset E S Act kw].
Proof.
  unfold wrapper.call_reset.
  destruct (wrapper.env_reset gym_env (wrapper.env_state e) kw). reflexivity.
Qed.

(** From a [reset] on, whatever [step] calls follow, the buffer mirrors
    the episode: [env.reset] was called once and then only [env.step];
    the rewards and the flags of the buffer are those the [env.step]
    calls returned, all of them, in order; and the window of observations
    holds the last [n_obs + 1] of the observation of [reset] followed by
    the observations of the [env.step] calls. *)
Theorem buffer_mirrors_the_episode (w : MultiStep) (kw : Kw)
    (calls : list (list Act)) :
  exists new,
    wrapper.env_calls (wrapper.env (run (fst (reset w kw)) (map OpStep calls)))
    = wrapper.env_calls (wrapper.env w)
      ++ wrapper.CallReset E S Act kw :: new
    /\ forallb is_step new = true
    /\ buffers.rewards (wrapper.buf (run (fst (reset w kw)) (map OpStep calls)))
       = step_rewards new
    /\ buffers.dones (wrapper.buf (run (fst (reset w kw)) (map OpStep calls)))
       = step_dones new
    /\ py.items
         (buffers.obs (wrapper.buf (run (fst (reset w kw)) (map OpStep calls))))
       = py.list_last_n
           (snd (call_reset (wrapper.env w) kw) :: step_obs new)
           (wrapper.n_obs w + 1).
Proof.
  destruct (run_steps_episode calls (fst (reset w kw)))
    as (new & Hc & Hs & Hr & Hd & Ho).
  exists new. rewrite Hc, Hr, Hd. rewrite reset_eq. cbn [fst].
  cbn [wrapper.set_buf wrapper.env wrapper.buf buffers.rewards buffers.dones
       buffers.add_obs buffers.StepBuffers_new app].
  rewrite call_reset_calls, <- app_assoc. cbn [app].
  split; [reflexivity|]. split; [exact Hs|]. split; [reflexivity|].
  split; [reflexivity|].
  destruct (Ho (wrapper.n_obs w + 1) [snd (call_reset (wrapper.env w) kw)])
    as [_ Hitems].
  - rewrite reset_eq. cbn [fst wrapper.set_buf wrapper.buf buffers.add_obs
      buffers.obs buffers.StepBuffers_new].
    unfold py.shows, py.deque_append, py.deque_new.
    cbn [py.maxlen py.items app length].
    split; [reflexivity|]. reflexivity.
  - rewrite reset_eq in Hitems. cbn [fst] in Hitems. rewrite Hitems.
    unfold py.list_last_n. rewrite Nat.add_1_r. reflexivity.
Qed.

(** With [n_action = 0] and no flag in the buffer, [step] of no action
    calls nothing, changes nothing and raises [ValueError]: there is
    nothing to reduce. *)
Theorem step_without_actions_raises (w : MultiStep) :
  wrapper.n_action w = 0 ->
  buffers.dones (wrapper.buf w) = [] ->
  step w [] = (w, Raise ValueError).
Proof.
  intros Hn Hd. rewrite (@step_eq _ _ _ _ _ gym_env w []) by (symmetry; exact Hn).
  cbn [wrapper.inner_loop]. unfold wrapper.aggregate.
  rewrite (@reduce_no_flags E S (wrapper.buf w) (wrapper.reward_reduce w) Hd).
  reflexivity.
Qed.

Lemma only_last_done_any (l : list bool) :
  wrapper.only_last_done l -> l <> [] ->
  existsb (fun d => d) l = last l false.
Proof.
  unfold wrapper.only_last_done.
  destruct l as [|d l _] using rev_ind; [congruence|].
  rewrite removelast_last, existsb_app, last_last. intros H _.
  rewrite H. cbn. apply orb_false_r.
Qed.

(** In every state a wrapper reaches, the flag aggregated over the whole
    buffer is the flag of the most recent inner step, unless the ceiling
    forces it to true. *)
Theorem aggregated_flag_is_the_last_flag (w : MultiStep) :
  reachable w ->
  buffers.supported (wrapper.reward_reduce w) ->
  buffers.dones (wrapper.buf w) <> [] ->
  exists r,
    wrapper.aggregate w
    = Ok (r, if wrapper.ceiling_reached w then true
             else last (buffers.dones (wrapper.buf w)) false).
Proof.
  intros Hreach Hmode Hd.
  destruct (@reachable_buffers_ok _ _ _ _ _ gym_env spaces_Box w Hreach) as (_ & _ & _ & Hlen).
  pose proof (@reachable_only_last_done _ _ _ _ _ gym_env spaces_Box w Hreach) as Hlast.
  destruct (@supported_lookup S _ Hmode) as [fn Hfn].
  destruct (@aggregate_ok _ _ _ _ _ w fn Hfn) as (r & _ & Hagg).
  - destruct (buffers.rewards (wrapper.buf w)); [|discriminate].
    destruct (buffers.dones (wrapper.buf w)); [congruence|discriminate].
  - exact Hlen.
  - exists r. rewrite Hagg, (only_last_done_any Hlast Hd). reflexivity.
Qed.

Lemma run_config (ops : list (wrapper.Op Act Kw)) :
  forall w : MultiStep, wrapper.same_config w (run w ops).
Proof.
  induction ops as [|op ops IH]; intros w.
  - apply same_config_refl.
  - unfold wrapper.run in *. cbn [fold_left].
    eapply same_config_trans; [apply apply_op_config|apply IH].
Qed.

(** What the constructor stores stays for the life of the wrapper: after
    any sequence of [reset] and [step] calls the four parameters are the
    arguments of the constructor, [observation_space] returns the
    [n_obs]-stacked observation space of the environment, and
    [_act_space] holds its [n_action]-stacked action space. *)
Theorem construction_is_permanent (e : wrapper.EnvObj E S EnvState Act Kw)
    (n_obs n_action : nat) (mode : string) (ceiling : option Z)
    (w : MultiStep) (ops : list (wrapper.Op Act Kw)) :
  wrapper.__init__ gym_env spaces_Box e n_obs n_action mode ceiling = Ok w ->
  wrapper.n_obs (run w ops) = n_obs
  /\ wrapper.n_action (run w ops) = n_action
  /\ wrapper.reward_reduce (run w ops) = mode
  /\ wrapper.max_ep (run w ops) = ceiling
  /\ (exists sp,
        space_utils.repeated_space spaces_Box
          (wrapper.env_observation_space gym_env) n_obs
        = Ok sp
        /\ wrapper.observation_space (run w ops) = Ok (wrapper.V_space sp))
  /\ space_utils.repeated_space spaces_Box
       (wrapper.env_action_space gym_env) n_action
     = Ok (wrapper._act_space (run w ops)).
Proof.
  intros Hinit.
  destruct (run_config ops w) as (H1 & H2 & H3 & H4 & H5 & H6).
  destruct (@init_spaces _ _ _ _ _ gym_env spaces_Box e n_obs n_action mode
              ceiling w Hinit)
    as (Ho & Ha & Hn & Hna).
  assert (Hargs : wrapper.reward_reduce w = mode /\ wrapper.max_ep w = ceiling).
  { unfold wrapper.__init__ in Hinit. rewrite Ho, Ha in Hinit.
    cbn [bind] in Hinit. inversion Hinit. split; reflexivity. }
  destruct Hargs as [Hmode Hceil].
  rewrite H1, H2, H3, H4, H6, Hn, Hna, Ha, Hmode, Hceil.
  split; [reflexivity|]. split; [reflexivity|].
  split; [reflexivity|]. split; [reflexivity|].
  split; [|reflexivity].
  exists (wrapper._obs_space w). split; [exact Ho|].
  rewrite observation_space_returns, H5. reflexivity.
Qed.

(** The constructor returns exactly when both spaces of the environment
    are made of boxes whose repeated bounds [spaces.Box] accepts; what it
    raises is [TypeError], for a space of another class, or the exception
    of [spaces.Box] on one of the boxes; the wrapper it returns holds the
    environment untouched and an empty buffer. *)
Theorem init_returns_iff_spaces_accepted
    (e : wrapper.EnvObj E S EnvState Act Kw)
    (n_obs n_action : nat) (mode : string) (ceiling : option Z) :
  is_ok (wrapper.__init__ gym_env spaces_Box e n_obs n_action mode ceiling)
  = (space_utils.boxes_only (wrapper.env_observation_space gym_env)
     && forallb (fun b => is_ok (space_utils.repeated_box spaces_Box b n_obs))
          (space_utils.boxes (wrapper.env_observation_space gym_env)))
    && (space_utils.boxes_only (wrapper.env_action_space gym_env)
        && forallb
             (fun b => is_ok (space_utils.repeated_box spaces_Box b n_action))
             (space_utils.boxes (wrapper.env_action_space gym_env)))
  /\ (forall err,
        wrapper.__init__ gym_env spaces_Box e n_obs n_action mode ceiling
        = Raise err ->
        err = TypeError
        \/ (exists b,
              In b (space_utils.boxes (wrapper.env_observation_space gym_env))
              /\ space_utils.repeated_box spaces_Box b n_obs = Raise err)
        \/ (exists b,
              In b (space_utils.boxes (wrapper.env_action_space gym_env))
              /\ space_utils.repeated_box spaces_Box b n_action = Raise err))
  /\ (forall w,
        wrapper.__init__ gym_env spaces_Box e n_obs n_action mode ceiling
        = Ok w ->
        wrapper.env w = e
        /\ wrapper.buf w = buffers.StepBuffers_new E S n_obs).
Proof.
  rewrite <- !(@repeated_space_is_ok E spaces_Box).
  unfold wrapper.__init__.
  destruct (space_utils.repeated_space spaces_Box
              (wrapper.env_observation_space gym_env) n_obs)
    as [so|eo] eqn:Ho; cbn [bind is_ok andb].
  - destruct (space_utils.repeated_space spaces_Box
                (wrapper.env_action_space gym_env) n_action)
      as [sa|ea] eqn:Ha; cbn [bind is_ok].
    + split; [reflexivity|]. split; [intros err H; discriminate H|].
      intros w H. inversion H. split; reflexivity.
    + split; [reflexivity|]. split; [|intros w H; discriminate H].
      intros err H. inversion H; subst ea.
      destruct (@repeated_space_error E spaces_Box _ _ _ Ha) as [He|Hb];
        [left; exact He|right; right; exact Hb].
  - split; [reflexivity|]. split; [|intros w H; discriminate H].
    intros err H. inversion H; subst eo.
    destruct (@repeated_space_error E spaces_Box _ _ _ Ho) as [He|Hb];
      [left; exact He|right; left; exact Hb].
Qed.

(** Without a ceiling, and with a ceiling of 0, which Python takes for
    false, the flag aggregated in an episode of an environment that never
    terminates is false at every macro-step, however long the episode. *)
Theorem without_ceiling_flag_stays_false (w : MultiStep) (kw : Kw)
    (calls : list (list Act)) (action : list Act) :
  wrapper.never_terminates gym_env ->
  wrapper.max_ep w = None \/ wrapper.max_ep w = Some 0%Z ->
  buffers.supported (wrapper.reward_reduce w) ->
  1 <= wrapper.n_action w ->
  Forall (fun a => length a = wrapper.n_action w) calls ->
  length action = wrapper.n_action w ->
  exists r,
    wrapper.aggregate
      (fst (step (run (fst (reset w kw)) (map OpStep calls)) action))
    = Ok (r, false).
Proof.
  intros Hnever Hk Hmode Hn Hcalls Hlen.
  set (w0 := fst (reset w kw)).
  assert (Hcfg0 : wrapper.same_config w w0).
  { apply (@apply_op_config _ _ _ _ _ gym_env w (wrapper.OpReset Act kw)). }
  assert (Hf0 : existsb (fun d => d) (buffers.dones (wrapper.buf w0)) = false)
    by (unfold w0; rewrite reset_eq; reflexivity).
  assert (Hr0 : buffers.rewards (wrapper.buf w0) = [])
    by (unfold w0; rewrite reset_eq; reflexivity).
  assert (Hok0 : wrapper.buffers_ok w0).
  { unfold w0. rewrite reset_eq. unfold wrapper.buffers_ok. cbn.
    split; [reflexivity|]. split; [apply window_ok_append, window_ok_new|].
    split; [constructor|reflexivity]. }
  destruct Hcfg0 as (_ & Hna0 & Hmode0 & Hk0 & _).
  destruct (@run_steps_never_done _ _ _ _ _ gym_env calls Hnever w0 Hf0 Hok0)
    as (Hf1 & Hl1 & Hcfg1 & Hok1).
  { rewrite Hna0. exact Hcalls. }
  set (w1 := run w0 (map OpStep calls)) in *.
  destruct Hcfg1 as (_ & Hna1 & Hmode1 & Hk1 & _).
  assert (Hlen1 : length action = wrapper.n_action w1) by congruence.
  rewrite (@step_eq _ _ _ _ _ gym_env w1 action Hlen1). cbn [fst].
  destruct (@inner_loop_never_done _ _ _ _ _ gym_env action Hnever w1 Hf1)
    as [Hf2 Hl2].
  pose proof (@inner_loop_buffers_ok _ _ _ _ _ gym_env action w1 Hok1) as Hok2.
  destruct (@inner_loop_config _ _ _ _ _ gym_env action w1)
    as (_ & Hna2 & Hmode2 & Hk2 & _).
  set (w2 := inner_loop w1 action) in *.
  destruct (@supported_lookup S _ Hmode) as [fn Hfn].
  destruct (@aggregate_ok _ _ _ _ _ w2 fn) as (r & _ & Hagg).
  - rewrite Hmode2, Hmode1, Hmode0. exact Hfn.
  - intros Hnil. rewrite Hnil in Hl2. cbn [length] in Hl2. lia.
  - apply Hok2.
  - exists r. rewrite Hagg, Hf2. unfold wrapper.ceiling_reached.
    rewrite Hk2, Hk1, Hk0. destruct Hk as [Hk|Hk]; rewrite Hk; reflexivity.
Qed.

End WrapperMore.

(** ** The episode properties on the small environment *)

Lemma step_without_actions_raises_witness :
  wrapper.step demo.never_done (demo.make demo.never_done 2 0 "max" None) []
  = (demo.make demo.never_done 2 0 "max" None, Raise ValueError).
Proof.
  apply (@step_without_actions_raises _ _ _ _ _ demo.never_done); reflexivity.
Defined.

Lemma aggregated_flag_is_the_last_flag_witness :
  exists r, wrapper.aggregate demo.short_end = Ok (r, true).
Proof.
  apply (@aggregated_flag_is_the_last_flag _ _ _ _ _ demo.done_at_once
           demo.spaces_Box demo.short_end reachable_short_end).
  - cbn. tauto.
  - discriminate.
Defined.

Lemma construction_is_permanent_witness :
  wrapper.n_obs demo.after_second = 2
  /\ wrapper.n_action demo.after_second = 1
  /\ wrapper.reward_reduce demo.after_second = "max"%string
  /\ wrapper.max_ep demo.after_second = None
  /\ (exists sp,
        space_utils.repeated_space demo.spaces_Box
          (space_utils.Box_ demo.obs_box) 2 = Ok sp
        /\ wrapper.observation_space demo.after_second = Ok (wrapper.V_space sp))
  /\ space_utils.repeated_space demo.spaces_Box
       (space_utils.Box_ demo.act_box) 1
     = Ok (wrapper._act_space demo.after_second).
Proof.
  apply (@construction_is_permanent _ _ _ _ _ demo.never_done
           demo.spaces_Box demo.fresh_env
           2 1 "max" None (demo.make demo.never_done 2 1 "max" None)
           [wrapper.OpReset nat tt; wrapper.OpStep unit [0];
            wrapper.OpStep unit [0]]).
  reflexivity.
Defined.

Lemma without_ceiling_flag_stays_false_witness :
  exists r,
    wrapper.aggregate
      (fst (wrapper.step demo.never_done
              (wrapper.run demo.never_done
                 (fst (wrapper.reset demo.never_done
                         (demo.make demo.never_done 2 2 "sum" (Some 0%Z)) tt))
                 (map (@wrapper.OpStep nat unit) [[0; 0]; [0; 0]]))
              [0; 0]))
    = Ok (r, false).
Proof.
  apply (@without_ceiling_flag_stays_false _ _ _ _ _ demo.never_done
           (demo.make demo.never_done 2 2 "sum" (Some 0%Z)) tt
           [[0; 0]; [0; 0]] [0; 0] never_done_never_terminates).
  - right. reflexivity.
  - cbn. tauto.
  - cbn. lia.
  - repeat constructor.
  - reflexivity.
Defined.

(** With [n_obs = 1] the window holds two frames: after [reset] and three
    inner steps it shows the frames of the last two steps. *)
Example window_shows_the_latest_frames :
  py.items
    (buffers.obs
       (wrapper.buf
          (wrapper.run demo.never_done
             (fst (wrapper.reset demo.never_done
                     (demo.make demo.never_done 1 1 "max" None) tt))
             (map (@wrapper.OpStep nat unit) [[0]; [0]; [0]]))))
  = [demo.frame 2; demo.frame 3].
Proof. reflexivity. Qed.

Example init_on_a_mixed_space :
  wrapper.__init__
    (wrapper.mk_Env (S := reductions.binary64) (Kw := unit)
       demo.mixed_space (space_utils.Box_ demo.act_box)
       (fun (s : nat) _ => (s, demo.frame 0))
       (fun (s : nat) (_ : nat) =>
          (s, wrapper.mk_StepOut reductions.binary64 (demo.frame 0) 0%float
                false false [])))
    demo.spaces_Box demo.fresh_env 2 3 "max" None
  = Raise TypeError.
Proof. reflexivity. Qed.

(** An environment whose actions are floats between -1 and 1: the
    constructor of the wrapper raises [ValueError]. *)
Example init_on_a_box_of_floats :
  wrapper.__init__
    (wrapper.mk_Env (S := reductions.binary64) (Kw := unit)
       (space_utils.Box_ demo.obs_box) (space_utils.Box_ demo.float_box)
       (fun (s : nat) _ => (s, demo.frame 0))
       (fun (s : nat) (_ : nat) =>
          (s, wrapper.mk_StepOut reductions.binary64 (demo.frame 0) 0%float
                false false [])))
    demo.spaces_Box demo.fresh_env 2 3 "max" None
  = Raise ValueError.
Proof. reflexivity. Qed.
